(** * SimpleDB: the normalization and rendering pipeline of [simpledb.py]

    A shallow embedding of [SimpleXDB._parse_message],
    [SimpleXDB._format_timestamp], the message loops of
    [get_contact_messages] / [get_group_messages] and the three exporters of
    [ChatExporter], followed by the properties of the design document that
    were checked against them. [SimpleDBApp._find_item], the file name of
    [_do_export] and the message count of the contact list are embedded as
    well, with further properties of the code in Part V.

    Conventions.
    - A Python [str] is a list of Unicode code points ([N]); a slice [s[:n]]
      is [firstn n s] and [len] is [length].
    - A value decoded from JSON is a [pyval]; Python floats are outside the
      model (no column or field of the pipeline is a float).
    - Code that may raise runs in the [result] monad; [try ... except: pass]
      is [try_except].
    - [export_txt] and [export_html] are the text handed to the file;
      [export_json] includes the write through the UTF-8 file, which
      raises on a surrogate code point ([write_utf8]).
    - Library functions whose behaviour is not part of the repository
      ([json.loads], [datetime.fromisoformat], [strftime], [str.upper]) are
      Section variables; executable instances for a documented fragment are
      given to run the code on concrete rows. *)

From Stdlib Require Import String Ascii.
From Stdlib Require Import DecimalString DecimalN.
From Stdlib Require Import NArith ZArith Bool Lia List.
Import ListNotations.

Set Implicit Arguments.

(* ===================================================================== *)
(** * Part I: the program *)
(* ===================================================================== *)

(** ** Python strings *)

Definition char := N.
Definition str := list char.

(** An ASCII literal as a [str]. *)
Definition lit (s : string) : str :=
  List.map N_of_ascii (list_ascii_of_string s).

(** The same, with every backquote standing for a double quote (code point
    34), so that JSON and HTML literals can be written down. *)
Definition litq (s : string) : str :=
  List.map (fun c => if N.eqb c 96 then 34%N else c) (lit s).

Definition ch (a : ascii) : char := N_of_ascii a.

Arguments lit s%_string.
Arguments litq s%_string.
Arguments ch a%_char.

Fixpoint str_eqb (a b : str) : bool :=
  match a, b with
  | [], [] => true
  | x :: a', y :: b' => N.eqb x y && str_eqb a' b'
  | _, _ => false
  end.

(** [c in s] for a one-character [c]. *)
Definition contains (c : char) (s : str) : bool := existsb (N.eqb c) s.

(** [s.split(sep)] for a one-character separator: never empty. *)
Fixpoint split (sep : char) (s : str) : list str :=
  match s with
  | [] => [[]]
  | c :: r =>
      if N.eqb c sep then [] :: split sep r
      else match split sep r with
           | w :: ws => (c :: w) :: ws
           | [] => [[c]]
           end
  end.

(** [s.replace(old, new)] for a one-character [old]. *)
Definition replace (old : char) (new : str) (s : str) : str :=
  flat_map (fun c => if N.eqb c old then new else [c]) s.

(** [sep.join(parts)]. *)
Fixpoint join (sep : str) (parts : list str) : str :=
  match parts with
  | [] => []
  | [p] => p
  | p :: ps => p ++ sep ++ join sep ps
  end.

(** [s * n]. *)
Definition str_mul (s : str) (n : nat) : str := concat (repeat s n).

(** [str(n)] for a non-negative integer, in decimal. *)
Fixpoint chars_of_uint (d : Decimal.uint) : str :=
  match d with
  | Decimal.Nil => []
  | Decimal.D0 r => 48%N :: chars_of_uint r
  | Decimal.D1 r => 49%N :: chars_of_uint r
  | Decimal.D2 r => 50%N :: chars_of_uint r
  | Decimal.D3 r => 51%N :: chars_of_uint r
  | Decimal.D4 r => 52%N :: chars_of_uint r
  | Decimal.D5 r => 53%N :: chars_of_uint r
  | Decimal.D6 r => 54%N :: chars_of_uint r
  | Decimal.D7 r => 55%N :: chars_of_uint r
  | Decimal.D8 r => 56%N :: chars_of_uint r
  | Decimal.D9 r => 57%N :: chars_of_uint r
  end.

Definition str_of_N (n : N) : str := chars_of_uint (N.to_uint n).
Definition str_of_nat (n : nat) : str := str_of_N (N.of_nat n).
Definition str_of_Z (z : Z) : str :=
  match z with
  | Zneg p => 45%N :: str_of_N (Npos p)
  | _ => str_of_N (Z.to_N z)
  end.

(** ** Exceptions *)

Inductive exn : Type :=
| AttributeError
| TypeError
| ValueError
| IndexError
| KeyError
| JSONDecodeError
| RecursionError
| UnicodeEncodeError.

Inductive result (A : Type) : Type :=
| Ok (a : A)
| Raise (e : exn).

Arguments Ok {A} a.
Arguments Raise {A} e.

Definition bind {A B} (c : result A) (k : A -> result B) : result B :=
  match c with
  | Ok a => k a
  | Raise e => Raise e
  end.

Notation "x <- c ;; k" := (bind c (fun x => k))
  (at level 61, c at next level, right associativity).

(** [try: body  except: handler] with a bare [except]. *)
Definition try_except {A} (body : result A) (handler : exn -> result A) : result A :=
  match body with
  | Ok a => Ok a
  | Raise e => handler e
  end.

(** [l[i]]. *)
Definition index {A} (l : list A) (i : nat) : result A :=
  match nth_error l i with
  | Some x => Ok x
  | None => Raise IndexError
  end.

(** ** Values decoded from JSON *)

Unset Elimination Schemes.

Inductive pyval : Type :=
| VNone
| VBool (b : bool)
| VInt (z : Z)
| VStr (s : str)
| VList (l : list pyval)
| VDict (d : list (str * pyval)).

Set Elimination Schemes.

(** Truth value of a Python object. *)
Definition truthy (v : pyval) : bool :=
  match v with
  | VNone => false
  | VBool b => b
  | VInt z => negb (Z.eqb z 0)
  | VStr s => negb (Nat.eqb (length s) 0)
  | VList l => negb (Nat.eqb (length l) 0)
  | VDict d => negb (Nat.eqb (length d) 0)
  end.

(** Truth value of a nullable TEXT column and of a nullable INTEGER column. *)
Definition truthy_text (t : option str) : bool :=
  match t with
  | Some (_ :: _) => true
  | _ => false
  end.

Definition truthy_int (i : option Z) : bool :=
  match i with
  | Some z => negb (Z.eqb z 0)
  | None => false
  end.

Fixpoint dict_lookup (k : str) (d : list (str * pyval)) : option pyval :=
  match d with
  | [] => None
  | (k', v) :: d' => if str_eqb k k' then Some v else dict_lookup k d'
  end.

(** [v.get(k, default)]: only a dict has [get]. *)
Definition py_get (v : pyval) (k : str) (default : pyval) : result pyval :=
  match v with
  | VDict d =>
      match dict_lookup k d with
      | Some x => Ok x
      | None => Ok default
      end
  | _ => Raise AttributeError
  end.

(** [isinstance(v, dict)]. *)
Definition is_dict (v : pyval) : bool :=
  match v with
  | VDict _ => true
  | _ => false
  end.

(** ** The data model *)

(** One row of [chat_items] as selected by the two queries: TEXT columns are
    [str] or NULL, INTEGER columns are [int] or NULL. *)
Record Row : Type := {
  chat_item_id : Z;
  item_ts : option str;
  item_sent : option Z;
  item_text : option str;
  item_deleted : option Z;
  item_content : option str;
  item_edited : option Z;
  quoted_content : option str;
  quoted_sent : option Z
}.

Module Quote.
Record t : Type := {
  text : pyval;
  sent_by_me : bool
}.
End Quote.

(** The dict returned by [_parse_message], key by key. *)
Module Message.
Record t : Type := {
  id : Z;
  timestamp : str;
  timestamp_raw : option str;
  sent : bool;
  sender : str;
  text : str;
  deleted : bool;
  edited : bool;
  content_type : pyval;
  quote : option Quote.t
}.

(** [if msg:] on a dict built with ten keys. *)
Definition truthy (_ : t) : bool := true.

Definition set_text (s : str) (m : t) : t :=
  {| id := id m; timestamp := timestamp m; timestamp_raw := timestamp_raw m;
     sent := sent m; sender := sender m; text := s; deleted := deleted m;
     edited := edited m; content_type := content_type m; quote := quote m |}.
End Message.

(** ** The Normalizer: [SimpleXDB._format_timestamp] and [_parse_message] *)

Section Normalizer.

(** [json.loads]. *)
Variable json_loads : str -> result pyval.
(** [datetime.fromisoformat] and [dt.strftime('%Y-%m-%d %H:%M:%S')]. *)
Variable datetime : Type.
Variable fromisoformat : str -> result datetime.
Variable strftime : datetime -> result str.

Definition _format_timestamp (ts : option str) : result str :=
  match ts with
  | None => Ok []
  | Some [] => Ok []
  | Some s =>
      try_except
        (if contains (ch "T") s then
           clean <- (if contains (ch ".") s
                     then index (split (ch ".") s) 0
                     else Ok (replace (ch "Z") [] s)) ;;
           dt <- fromisoformat clean ;;
           strftime dt
         else Ok s)
        (fun _ => Ok s)
  end.

(** Lines 174-184: the content type. *)
Definition parse_content_type (item_content : option str) : result pyval :=
  let content_type := VStr (lit "text") in
  match item_content with
  | Some ((_ :: _) as raw) =>
      try_except
        (content <- json_loads raw ;;
         snd_default <- py_get content (lit "sndMsgContent") (VDict []) ;;
         msg_content <- py_get content (lit "rcvMsgContent") snd_default ;;
         if is_dict msg_content then
           inner <- py_get msg_content (lit "msgContent") (VDict []) ;;
           py_get inner (lit "type") (VStr (lit "text"))
         else Ok content_type)
        (fun _ => Ok content_type)
  | _ => Ok content_type
  end.

(** Lines 186-198: the quote. *)
Definition parse_quote (quoted_content : option str) (quoted_sent : option Z)
  : result (option Quote.t) :=
  match quoted_content with
  | Some ((_ :: _) as raw) =>
      try_except
        (qc <- json_loads raw ;;
         quote_text <- py_get qc (lit "text") (VStr []) ;;
         if truthy quote_text then
           Ok (Some {| Quote.text := quote_text;
                       Quote.sent_by_me := truthy_int quoted_sent |})
         else Ok None)
        (fun _ => Ok None)
  | _ => Ok None
  end.

Definition _parse_message (row : Row) (contact_name : option str)
  : result Message.t :=
  content_type <- parse_content_type (item_content row) ;;
  quote <- parse_quote (quoted_content row) (quoted_sent row) ;;
  ts <- _format_timestamp (item_ts row) ;;
  Ok {| Message.id := chat_item_id row;
        Message.timestamp := ts;
        Message.timestamp_raw := item_ts row;
        Message.sent := truthy_int (item_sent row);
        Message.sender :=
          if truthy_int (item_sent row) then lit "ME"
          else if truthy_text contact_name
               then match contact_name with Some n => n | None => [] end
               else lit "CONTACT";
        Message.text := match item_text row with
                        | Some s => s
                        | None => []
                        end;
        Message.deleted := truthy_int (item_deleted row);
        Message.edited := truthy_int (item_edited row);
        Message.content_type := content_type;
        Message.quote := quote |}.

(** The loop shared by [get_contact_messages] and [get_group_messages] over
    the rows returned by [cursor.fetchall()]; a group row carries the
    member's display name as its tenth column. *)
Fixpoint collect (rows : list (Row * option str)) (messages : list Message.t)
  : result (list Message.t) :=
  match rows with
  | [] => Ok messages
  | (r, name) :: rest =>
      msg <- _parse_message r name ;;
      collect rest (if Message.truthy msg then messages ++ [msg] else messages)
  end.

Definition get_contact_messages (fetched : list Row) (contact_name : option str)
  : result (list Message.t) :=
  collect (List.map (fun r => (r, contact_name)) fetched) [].

Definition get_group_messages (fetched : list (Row * option str))
  : result (list Message.t) :=
  collect fetched [].

End Normalizer.

(** The filter both queries apply to [item_content] before any row reaches
    the loop: [LIKE '%rcvMsgContent%' OR LIKE '%sndMsgContent%'], a
    substring test that ignores the case of ASCII letters and is false on
    NULL. *)
Definition fold_case (c : char) : char :=
  if N.leb 65 c && N.leb c 90 then (c + 32)%N else c.

Fixpoint prefix_ci (p s : str) : bool :=
  match p, s with
  | [], _ => true
  | x :: p', y :: s' => N.eqb (fold_case x) (fold_case y) && prefix_ci p' s'
  | _ :: _, [] => false
  end.

Fixpoint like_contains (needle hay : str) : bool :=
  prefix_ci needle hay ||
  match hay with
  | [] => false
  | _ :: rest => like_contains needle rest
  end.

Definition where_clause (r : Row) : bool :=
  match item_content r with
  | Some c => like_contains (lit "rcvMsgContent") c
              || like_contains (lit "sndMsgContent") c
  | None => false
  end.

(** ** An executable [json]: the encoder used by [export_json] and a decoder

    [dumps] is [json.dumps(obj, ensure_ascii=False, indent=2)], the text
    [json.dump] writes. [loads] follows the scanner of [json.decoder]
    ([scan_once], [JSONObject], [JSONArray], [scanstring] in strict mode) on
    documents without floats: a number with a fraction or an exponent,
    [NaN] and the infinities are outside the model and make the instance
    raise. The fuel bounds the nesting by the length of the document, not
    by the interpreter's recursion limit. The general statements take
    [json.loads] as a parameter; the instance runs the examples. *)

Module Json.

Definition hex_digit (n : N) : char :=
  if N.ltb n 10 then (48 + n)%N else (87 + n)%N.

(** [ESCAPE_DCT] of [json.encoder]. *)
Definition escape_char (c : char) : str :=
  if N.eqb c 34 then [92; 34]%N
  else if N.eqb c 92 then [92; 92]%N
  else if N.eqb c 10 then [92; 110]%N
  else if N.eqb c 13 then [92; 114]%N
  else if N.eqb c 9 then [92; 116]%N
  else if N.eqb c 8 then [92; 98]%N
  else if N.eqb c 12 then [92; 102]%N
  else if N.ltb c 32 then
    [92; 117; 48; 48; hex_digit (c / 16); hex_digit (c mod 16)]%N
  else [c].

Definition encode_str (s : str) : str :=
  34%N :: flat_map escape_char s ++ [34%N].

Definition newline_indent (level : nat) : str :=
  10%N :: repeat 32%N (2 * level).

(** The items of a non-empty container: each on a line of its own, a comma
    after all but the last. *)
Definition encode_items {A : Type} (indent : str) (enc : A -> str)
  : list A -> str :=
  fix items (l : list A) : str :=
    match l with
    | [] => []
    | x :: xs =>
        indent ++ enc x ++ (match xs with [] => [] | _ => lit "," end) ++ items xs
    end.

Fixpoint encode (level : nat) (v : pyval) {struct v} : str :=
  match v with
  | VNone => lit "null"
  | VBool true => lit "true"
  | VBool false => lit "false"
  | VInt z => str_of_Z z
  | VStr s => encode_str s
  | VList [] => lit "[]"
  | VList l =>
      lit "[" ++
      encode_items (newline_indent (S level)) (encode (S level)) l ++
      newline_indent level ++ lit "]"
  | VDict [] => lit "{}"
  | VDict d =>
      lit "{" ++
      encode_items (newline_indent (S level))
        (fun kv => encode_str (fst kv) ++ lit ": " ++ encode (S level) (snd kv)) d ++
      newline_indent level ++ lit "}"
  end.

Definition dumps (v : pyval) : str := encode 0 v.

(** *** Decoder *)

Definition is_ws (c : char) : bool :=
  N.eqb c 32 || N.eqb c 9 || N.eqb c 10 || N.eqb c 13.

Fixpoint skip_ws (s : str) : str :=
  match s with
  | c :: r => if is_ws c then skip_ws r else s
  | [] => []
  end.

Definition is_digit (c : char) : bool := N.leb 48 c && N.leb c 57.

Definition hex_val (c : char) : option N :=
  if N.leb 48 c && N.leb c 57 then Some (c - 48)%N
  else if N.leb 97 c && N.leb c 102 then Some (c - 87)%N
  else if N.leb 65 c && N.leb c 70 then Some (c - 55)%N
  else None.

Definition decode_uXXXX (a b c d : char) : option N :=
  match hex_val a, hex_val b, hex_val c, hex_val d with
  | Some x, Some y, Some z, Some w => Some (((x * 16 + y) * 16 + z) * 16 + w)%N
  | _, _, _, _ => None
  end.

Definition is_high_surrogate (u : N) : bool := N.leb 55296 u && N.leb u 56319.
Definition is_low_surrogate (u : N) : bool := N.leb 56320 u && N.leb u 57343.
Definition join_surrogates (u u2 : N) : N :=
  (65536 + ((u - 55296) * 1024 + (u2 - 56320)))%N.

(** [BACKSLASH] of [json.decoder]. *)
Definition unescape (e : char) : option char :=
  if N.eqb e 34 then Some 34%N
  else if N.eqb e 92 then Some 92%N
  else if N.eqb e 47 then Some 47%N
  else if N.eqb e 98 then Some 8%N
  else if N.eqb e 102 then Some 12%N
  else if N.eqb e 110 then Some 10%N
  else if N.eqb e 114 then Some 13%N
  else if N.eqb e 116 then Some 9%N
  else None.

Definition cons_char (c : char) (r : result (str * str)) : result (str * str) :=
  p <- r ;; Ok (c :: fst p, snd p).

(** [scanstring(s, end, strict=True)], entered after the opening quote:
    the decoded string and the input after the closing quote. *)
Fixpoint scanstring (s : str) : result (str * str) :=
  match s with
  | [] => Raise JSONDecodeError
  | c :: r =>
      if N.eqb c 34 then Ok ([], r)
      else if N.eqb c 92 then
        match r with
        | [] => Raise JSONDecodeError
        | e :: r1 =>
            if N.eqb e 117 then
              match r1 with
              | a :: b :: c' :: d :: r2 =>
                  match decode_uXXXX a b c' d with
                  | None => Raise JSONDecodeError
                  | Some uni =>
                      match r2 with
                      | b1 :: u1 :: a2 :: b2 :: c2 :: d2 :: r3 =>
                          if is_high_surrogate uni && N.eqb b1 92 && N.eqb u1 117
                          then
                            match decode_uXXXX a2 b2 c2 d2 with
                            | None => Raise JSONDecodeError
                            | Some uni2 =>
                                if is_low_surrogate uni2
                                then cons_char (join_surrogates uni uni2)
                                               (scanstring r3)
                                else cons_char uni (scanstring r2)
                            end
                          else cons_char uni (scanstring r2)
                      | _ => cons_char uni (scanstring r2)
                      end
                  end
              | _ => Raise JSONDecodeError
              end
            else
              match unescape e with
              | Some x => cons_char x (scanstring r1)
              | None => Raise JSONDecodeError
              end
        end
      else if N.ltb c 32 then Raise JSONDecodeError
      else cons_char c (scanstring r)
  end.

Fixpoint span_digits (s : str) : str * str :=
  match s with
  | c :: r =>
      if is_digit c then let p := span_digits r in (c :: fst p, snd p)
      else ([], s)
  | [] => ([], [])
  end.

Definition N_of_digits (ds : str) : N :=
  fold_left (fun acc c => (acc * 10 + (c - 48))%N) ds 0%N.

(** Does a fraction (a dot and a digit) or an exponent (e or E, an optional
    sign and a digit) follow? *)
Definition float_tail (s : str) : bool :=
  match s with
  | c :: d :: r =>
      (N.eqb c 46 && is_digit d)
      || ((N.eqb c 101 || N.eqb c 69)
          && (is_digit d
              || ((N.eqb d 43 || N.eqb d 45)
                  && match r with x :: _ => is_digit x | [] => false end)))
  | _ => false
  end.

(** [NUMBER_RE], integers only: a single 0, or a non-zero digit followed by
    digits. [s] is the input after an optional minus sign. *)
Definition scan_int (negative : bool) (s : str) : result (pyval * str) :=
  match s with
  | c :: r =>
      if N.eqb c 48 then
        if float_tail r then Raise ValueError else Ok (VInt 0, r)
      else if is_digit c then
        let p := span_digits s in
        if float_tail (snd p) then Raise ValueError
        else
          let n := Z.of_N (N_of_digits (fst p)) in
          Ok (VInt (if negative then Z.opp n else n), snd p)
      else Raise JSONDecodeError
  | [] => Raise JSONDecodeError
  end.

Fixpoint starts_with (p s : str) : option str :=
  match p, s with
  | [], _ => Some s
  | x :: p', y :: s' => if N.eqb x y then starts_with p' s' else None
  | _ :: _, [] => None
  end.

(** [dict(pairs)]: a repeated key keeps its first position and takes the
    last value. *)
Fixpoint dict_set (k : str) (v : pyval) (d : list (str * pyval))
  : list (str * pyval) :=
  match d with
  | [] => [(k, v)]
  | (k', v') :: d' =>
      if str_eqb k k' then (k', v) :: d' else (k', v') :: dict_set k v d'
  end.

Definition dict_of_pairs (pairs : list (str * pyval)) : list (str * pyval) :=
  fold_left (fun d kv => dict_set (fst kv) (snd kv) d) pairs [].

(** [scan_once]; [fuel] bounds the nesting and the number of items. *)
Fixpoint scan_once (fuel : nat) (s : str) {struct fuel} : result (pyval * str) :=
  match fuel with
  | O => Raise RecursionError
  | S fuel' =>
      match s with
      | [] => Raise JSONDecodeError
      | c :: r =>
          if N.eqb c 34 then
            p <- scanstring r ;; Ok (VStr (fst p), snd p)
          else if N.eqb c 123 then
            match skip_ws r with
            | [] => Raise JSONDecodeError
            | c1 :: r1 =>
                if N.eqb c1 125 then Ok (VDict [], r1)
                else
                  p <- JSONObject fuel' (c1 :: r1) ;;
                  Ok (VDict (dict_of_pairs (fst p)), snd p)
            end
          else if N.eqb c 91 then
            match skip_ws r with
            | [] => Raise JSONDecodeError
            | c1 :: r1 =>
                if N.eqb c1 93 then Ok (VList [], r1)
                else
                  p <- JSONArray fuel' (c1 :: r1) ;;
                  Ok (VList (fst p), snd p)
            end
          else
            match starts_with (lit "null") s with
            | Some r' => Ok (VNone, r')
            | None =>
            match starts_with (lit "true") s with
            | Some r' => Ok (VBool true, r')
            | None =>
            match starts_with (lit "false") s with
            | Some r' => Ok (VBool false, r')
            | None =>
                if N.eqb c 45 then
                  match r with
                  | d :: _ =>
                      if is_digit d then scan_int true r
                      else match starts_with (lit "Infinity") r with
                           | Some _ => Raise ValueError
                           | None => Raise JSONDecodeError
                           end
                  | [] => Raise JSONDecodeError
                  end
                else if is_digit c then scan_int false s
                else
                  match starts_with (lit "NaN") s, starts_with (lit "Infinity") s with
                  | None, None => Raise JSONDecodeError
                  | _, _ => Raise ValueError
                  end
            end end end
      end
  end

(** The loop of [JSONObject], entered at the opening quote of a key. *)
with JSONObject (fuel : nat) (s : str) {struct fuel}
  : result (list (str * pyval) * str) :=
  match fuel with
  | O => Raise RecursionError
  | S fuel' =>
      match s with
      | [] => Raise JSONDecodeError
      | c :: r =>
          if N.eqb c 34 then
            k <- scanstring r ;;
            match skip_ws (snd k) with
            | [] => Raise JSONDecodeError
            | c2 :: r2 =>
                if N.eqb c2 58 then
                  x <- scan_once fuel' (skip_ws r2) ;;
                  match skip_ws (snd x) with
                  | [] => Raise JSONDecodeError
                  | c4 :: r4 =>
                      if N.eqb c4 125 then Ok ([(fst k, fst x)], r4)
                      else if N.eqb c4 44 then
                        p <- JSONObject fuel' (skip_ws r4) ;;
                        Ok ((fst k, fst x) :: fst p, snd p)
                      else Raise JSONDecodeError
                  end
                else Raise JSONDecodeError
            end
          else Raise JSONDecodeError
      end
  end

(** The loop of [JSONArray], entered at the first character of an item. *)
with JSONArray (fuel : nat) (s : str) {struct fuel}
  : result (list pyval * str) :=
  match fuel with
  | O => Raise RecursionError
  | S fuel' =>
      x <- scan_once fuel' s ;;
      match skip_ws (snd x) with
      | [] => Raise JSONDecodeError
      | c4 :: r4 =>
          if N.eqb c4 93 then Ok ([fst x], r4)
          else if N.eqb c4 44 then
            p <- JSONArray fuel' (skip_ws r4) ;;
            Ok (fst x :: fst p, snd p)
          else Raise JSONDecodeError
      end
  end.

(** [json.loads(s)] for a [str]: [JSONDecoder.decode]. *)
Definition starts_with_bom (s : str) : bool :=
  match s with
  | c :: _ => N.eqb c 65279
  | [] => false
  end.

Definition loads (s : str) : result pyval :=
  if starts_with_bom s then Raise JSONDecodeError
  else
    p <- scan_once (2 * length s + 1) (skip_ws s) ;;
    match skip_ws (snd p) with
    | [] => Ok (fst p)
    | _ :: _ => Raise JSONDecodeError
    end.

End Json.

(** ** The exporters: [ChatExporter] *)

(** The non-ASCII glyphs of the string constants, code point by code point
    as they stand in the source file. *)
Definition RULE : str := [226; 8221; 8364]%N.
Definition BOX_TOP : str := [226; 8221; 338; 226; 8221; 8364]%N.
Definition BOX_SIDE : str := [226; 8221; 8218]%N.
Definition BOX_END : str := [226; 8221; 8221; 226; 8221; 8364]%N.
Definition REPLY_MARK : str := [226; 8224; 179]%N.
Definition QUOTE_MARK : str := [226; 8224; 169]%N.
Definition DEFAULT_ICON : str := [240; 376; 8220; 8222]%N.
Definition nl : str := [10%N].

Definition CONTENT_ICONS : list (str * str) :=
  [ (lit "text", []);
    (lit "image", [240; 376; 8220; 183]%N);
    (lit "file", [240; 376; 8220; 381]%N);
    (lit "voice", [240; 376; 381; 164]%N);
    (lit "video", [240; 376; 381; 172]%N);
    (lit "link", [240; 376; 8221; 8212]%N) ].

Fixpoint assoc (k : str) (table : list (str * str)) : option str :=
  match table with
  | [] => None
  | (k', v) :: rest => if str_eqb k k' then Some v else assoc k rest
  end.

(** [CONTENT_ICONS.get(content_type, default)]: a list or a dict is not
    hashable; any other non-string is a key the table does not have. *)
Definition icons_get (content_type : pyval) (default : str) : result str :=
  match content_type with
  | VStr s => Ok (match assoc s CONTENT_ICONS with
                  | Some icon => icon
                  | None => default
                  end)
  | VList _ | VDict _ => Raise TypeError
  | _ => Ok default
  end.

Definition nonempty (s : str) : bool :=
  match s with
  | [] => false
  | _ :: _ => true
  end.

(** [msg['timestamp'].split(' ')[0] if msg['timestamp'] else ''] *)
Definition msg_date (msg : Message.t) : result str :=
  if nonempty (Message.timestamp msg)
  then index (split (ch " ") (Message.timestamp msg)) 0
  else Ok [].

(** [msg_date and msg_date != current_date], [current_date] starting as
    [None]. *)
Definition date_changes (current_date : option str) (d : str) : bool :=
  nonempty d &&
  negb (match current_date with
        | Some c => str_eqb d c
        | None => false
        end).

(** [for x in xs: st = step(st, x)], aborted by the first exception. *)
Fixpoint for_each {S A : Type} (step : S -> A -> result S) (xs : list A) (st : S)
  : result S :=
  match xs with
  | [] => Ok st
  | x :: rest => st' <- step st x ;; for_each step rest st'
  end.

(** [ChatExporter._escape_html]. *)
Definition _escape_html (text : str) : str :=
  replace 10%N (lit "<br>")
    (replace 34%N (lit "&quot;")
       (replace (ch ">") (lit "&gt;")
          (replace (ch "<") (lit "&lt;")
             (replace (ch "&") (lit "&amp;") text)))).

Section Renderer.

(** [str.upper]. *)
Variable upper : str -> str.
(** How an f-string field formats a list ([str] of a list). *)
Variable py_str : pyval -> str.

(** [msg['content_type'].upper()]. *)
Definition type_upper (content_type : pyval) : result str :=
  match content_type with
  | VStr s => Ok (upper s)
  | _ => Raise AttributeError
  end.

(** *** [export_txt] *)

(** Lines 268-272, given that the date changed. *)
Definition txt_separator (current_date : str) : list str :=
  [ [];
    str_mul RULE 25 ++ lit " " ++ current_date ++ lit " " ++ str_mul RULE 25;
    [] ].

(** Line 288. *)
Definition txt_quote_line (quote_sender quote_preview : str) : str :=
  BOX_SIDE ++ lit "  " ++ REPLY_MARK ++ lit " Reply to " ++ quote_sender
  ++ lit ": " ++ [34%N] ++ quote_preview ++ [34%N].

(** Lines 283-288. Slicing and [len] work on a [str] and on a list; any
    other value is not subscriptable. *)
Definition txt_quote (quote : option Quote.t) : result (list str) :=
  match quote with
  | None => Ok []
  | Some q =>
      let quote_sender := if Quote.sent_by_me q then lit "ME" else lit "THEM" in
      quote_preview <-
        match Quote.text q with
        | VStr s =>
            let p := firstn 50 s in
            Ok (if Nat.ltb 50 (length s) then p ++ lit "..." else p)
        | VList l =>
            let p := firstn 50 l in
            Ok (py_str (VList (if Nat.ltb 50 (length l)
                               then p ++ [VStr (lit "."); VStr (lit "."); VStr (lit ".")]
                               else p)))
        | _ => Raise TypeError
        end ;;
      Ok [ txt_quote_line quote_sender quote_preview ]
  end.

Definition TXT_DELETED : str := BOX_SIDE ++ lit "  [Message deleted]".

(** Lines 290-298. *)
Definition txt_content (msg : Message.t) (icon : str) : result (list str) :=
  if Message.deleted msg then Ok [TXT_DELETED]
  else if nonempty (Message.text msg) then
    Ok (List.map
          (fun text_line =>
             let prefix := if nonempty icon then icon ++ lit " " else [] in
             BOX_SIDE ++ lit "  " ++ prefix ++ text_line)
          (split 10%N (Message.text msg)))
  else
    u <- type_upper (Message.content_type msg) ;;
    Ok [ BOX_SIDE ++ lit "  " ++ icon ++ lit " [" ++ u ++ lit "]" ].

(** Line 275. *)
Definition txt_time (msg : Message.t) : result str :=
  let ts := Message.timestamp msg in
  if contains (ch " ") ts then index (split (ch " ") ts) 1 else Ok ts.

(** Lines 276-280. *)
Definition txt_title (msg : Message.t) (time : str) : str :=
  let sender := Message.sender msg in
  let edited := if Message.edited msg then lit " [edited]" else [] in
  BOX_TOP ++ lit " [" ++ time ++ lit "] " ++ sender ++ edited.

(** Lines 274-301: the block of one message. *)
Definition txt_block (msg : Message.t) : result (list str) :=
  time <- txt_time msg ;;
  icon <- icons_get (Message.content_type msg) [] ;;
  quote_lines <- txt_quote (Message.quote msg) ;;
  content <- txt_content msg icon ;;
  Ok ([txt_title msg time] ++ quote_lines ++ content ++ [BOX_END; []]).

(** The body of the loop: the state is [(current_date, lines)]. *)
Definition txt_message (st : option str * list str) (msg : Message.t)
  : result (option str * list str) :=
  d <- msg_date msg ;;
  let st' := if date_changes (fst st) d
             then (Some d, snd st ++ txt_separator d)
             else st in
  block <- txt_block msg ;;
  Ok (fst st', snd st' ++ block).

Definition txt_header (chat_name exported : str) (count : nat) : list str :=
  [ str_mul (lit "=") 70;
    lit "  SIMPLEX CHAT EXPORT: " ++ chat_name;
    lit "  Exported: " ++ exported;
    lit "  Messages: " ++ str_of_nat count;
    str_mul (lit "=") 70;
    [] ].

Definition txt_footer : list str :=
  [ str_mul (lit "=") 70; lit "  END OF EXPORT"; str_mul (lit "=") 70 ].

(** [export_txt]: the text handed to [f.write] (the write itself is
    [write_utf8] below); [exported] is
    [datetime.now().strftime('%Y-%m-%d %H:%M:%S')]. *)
Definition export_txt (messages : list Message.t) (chat_name exported : str)
  : result str :=
  st <- for_each txt_message messages
          (None, txt_header chat_name exported (length messages)) ;;
  Ok (join nl (snd st ++ txt_footer)).

(** *** [export_html] *)



(** Line 427. *)
Definition html_separator (current_date : str) : str :=
  litq "            <div class=`date-sep`>" ++ RULE ++ RULE ++ RULE ++ lit " "
  ++ current_date ++ lit " " ++ RULE ++ RULE ++ RULE ++ litq "</div>" ++ nl.

(** Lines 442-445. *)
Definition html_quote_block (q_sender q_text : str) : str :=
  litq "                <div class=`quote`>" ++ nl
  ++ litq "                    <div class=`quote-sender`>" ++ QUOTE_MARK
  ++ lit " " ++ q_sender ++ litq "</div>" ++ nl
  ++ litq "                    <div class=`quote-text`>" ++ q_text
  ++ litq "</div>" ++ nl
  ++ litq "                </div>" ++ nl.

(** Lines 439-445. A list can be sliced but has no [replace]. *)
Definition html_quote (quote : option Quote.t) : result str :=
  match quote with
  | None => Ok []
  | Some q =>
      let q_sender := if Quote.sent_by_me q then lit "ME" else lit "THEM" in
      q_text <-
        match Quote.text q with
        | VStr s => Ok (_escape_html (firstn 100 s))
        | VList _ => Raise AttributeError
        | _ => Raise TypeError
        end ;;
      Ok (html_quote_block q_sender q_text)
  end.

Definition HTML_DELETED : str :=
  litq "                <div class=`content deleted`>[Message deleted]</div>" ++ nl.

(** Lines 447-454. *)
Definition html_content (msg : Message.t) : result str :=
  if Message.deleted msg then Ok HTML_DELETED
  else if nonempty (Message.text msg) then
    let text := _escape_html (Message.text msg) in
    Ok (litq "                <div class=`content`>" ++ text ++ litq "</div>" ++ nl)
  else
    icon <- icons_get (Message.content_type msg) DEFAULT_ICON ;;
    u <- type_upper (Message.content_type msg) ;;
    Ok (litq "                <div class=`content`><span class=`media`>" ++ icon
        ++ lit " " ++ u ++ litq "</span></div>" ++ nl).

(** Line 430. *)
Definition html_time (msg : Message.t) : result str :=
  let ts := Message.timestamp msg in
  if contains (ch " ") ts then index (split (ch " ") ts) 1 else Ok [].

(** Lines 429-437. *)
Definition html_title (msg : Message.t) (time : str) : str :=
  let cls := if Message.sent msg then lit "sent" else lit "received" in
  let edited := if Message.edited msg
                then litq "<span class=`edited`>(edited)</span>" else [] in
  litq "            <div class=`msg " ++ cls ++ litq "`>" ++ nl
  ++ litq "                <div class=`msg-header`>" ++ nl
  ++ litq "                    <span class=`sender`>" ++ Message.sender msg
  ++ litq "</span>" ++ nl
  ++ litq "                    <span><span class=`time`>" ++ time
  ++ litq "</span>" ++ edited ++ litq "</span>" ++ nl
  ++ litq "                </div>" ++ nl.

Definition HTML_CLOSE : str := litq "            </div>" ++ nl.

(** Lines 429-456: the block of one message. *)
Definition html_block (msg : Message.t) : result str :=
  time <- html_time msg ;;
  quote <- html_quote (Message.quote msg) ;;
  content <- html_content msg ;;
  Ok (html_title msg time ++ quote ++ content ++ HTML_CLOSE).

(** The body of the loop: the state is [(current_date, html)]. *)
Definition html_message (st : option str * str) (msg : Message.t)
  : result (option str * str) :=
  d <- msg_date msg ;;
  let st' := if date_changes (fst st) d
             then (Some d, snd st ++ html_separator d)
             else st in
  block <- html_block msg ;;
  Ok (fst st', snd st' ++ block).


End Renderer.

(** *** Writing the file

    [f.write(text)] on a file opened with [encoding='utf-8'], as the three
    exporters open it: a surrogate code point (U+D800 to U+DFFF, which a
    Python [str] can hold, for instance decoded from a JSON escape) cannot
    be encoded and the write raises [UnicodeEncodeError]; any other text
    is written as it is. *)
Definition surrogate (c : char) : bool := N.leb 55296 c && N.leb c 57343.

Definition has_surrogate (s : str) : bool := existsb surrogate s.

Definition write_utf8 (text : str) : result str :=
  if has_surrogate text then Raise UnicodeEncodeError else Ok text.

(** *** [export_json] *)

Definition opt_str (o : option str) : pyval :=
  match o with
  | Some s => VStr s
  | None => VNone
  end.

(** A quote and a message as the dicts they are in the program. *)
Definition quote_dict (q : Quote.t) : pyval :=
  VDict [ (lit "text", Quote.text q);
          (lit "sent_by_me", VBool (Quote.sent_by_me q)) ].

Definition message_dict (m : Message.t) : pyval :=
  VDict [ (lit "id", VInt (Message.id m));
          (lit "timestamp", VStr (Message.timestamp m));
          (lit "timestamp_raw", opt_str (Message.timestamp_raw m));
          (lit "sent", VBool (Message.sent m));
          (lit "sender", VStr (Message.sender m));
          (lit "text", VStr (Message.text m));
          (lit "deleted", VBool (Message.deleted m));
          (lit "edited", VBool (Message.edited m));
          (lit "content_type", Message.content_type m);
          (lit "quote", match Message.quote m with
                        | Some q => quote_dict q
                        | None => VNone
                        end) ].

Definition json_data (messages : list Message.t) (chat_name exported_at : str)
  : pyval :=
  VDict [ (lit "meta",
           VDict [ (lit "chat_name", VStr chat_name);
                   (lit "exported_at", VStr exported_at);
                   (lit "message_count", VInt (Z.of_nat (length messages)));
                   (lit "tool", VStr (lit "SimpleDB")) ]);
          (lit "messages", VList (List.map message_dict messages)) ].

(** The text [json.dump(data, f, ensure_ascii=False, indent=2)] produces;
    [exported_at] is [datetime.now().isoformat()]. *)
Definition json_text (messages : list Message.t) (chat_name exported_at : str)
  : str :=
  Json.dumps (json_data messages chat_name exported_at).

(** [export_json]: the document written to the file, or the error of the
    write. [json.dump] hands the text to [f.write] piece by piece; the
    write that meets a surrogate raises and no document is completed. *)
Definition export_json (messages : list Message.t) (chat_name exported_at : str)
  : result str :=
  write_utf8 (json_text messages chat_name exported_at).

(** *** Reading an exported document back

    What a consumer of the JSON file does with the decoded document:
    [doc['messages']], then every record key by key. *)

(** [v[k]]. *)
Definition py_item (v : pyval) (k : str) : result pyval :=
  match v with
  | VDict d =>
      match dict_lookup k d with
      | Some x => Ok x
      | None => Raise KeyError
      end
  | _ => Raise TypeError
  end.

Definition as_int (v : pyval) : result Z :=
  match v with VInt z => Ok z | _ => Raise TypeError end.

Definition as_bool (v : pyval) : result bool :=
  match v with VBool b => Ok b | _ => Raise TypeError end.

Definition as_str (v : pyval) : result str :=
  match v with VStr s => Ok s | _ => Raise TypeError end.

Definition as_opt_str (v : pyval) : result (option str) :=
  match v with
  | VNone => Ok None
  | VStr s => Ok (Some s)
  | _ => Raise TypeError
  end.

Definition read_quote (v : pyval) : result (option Quote.t) :=
  match v with
  | VNone => Ok None
  | _ =>
      t <- py_item v (lit "text") ;;
      b <- (x <- py_item v (lit "sent_by_me") ;; as_bool x) ;;
      Ok (Some {| Quote.text := t; Quote.sent_by_me := b |})
  end.

Definition read_message (v : pyval) : result Message.t :=
  i <- (x <- py_item v (lit "id") ;; as_int x) ;;
  ts <- (x <- py_item v (lit "timestamp") ;; as_str x) ;;
  raw <- (x <- py_item v (lit "timestamp_raw") ;; as_opt_str x) ;;
  snt <- (x <- py_item v (lit "sent") ;; as_bool x) ;;
  sndr <- (x <- py_item v (lit "sender") ;; as_str x) ;;
  txt <- (x <- py_item v (lit "text") ;; as_str x) ;;
  del <- (x <- py_item v (lit "deleted") ;; as_bool x) ;;
  ed <- (x <- py_item v (lit "edited") ;; as_bool x) ;;
  ct <- py_item v (lit "content_type") ;;
  q <- (x <- py_item v (lit "quote") ;; read_quote x) ;;
  Ok {| Message.id := i; Message.timestamp := ts; Message.timestamp_raw := raw;
        Message.sent := snt; Message.sender := sndr; Message.text := txt;
        Message.deleted := del; Message.edited := ed;
        Message.content_type := ct; Message.quote := q |}.

Fixpoint read_all (l : list pyval) : result (list Message.t) :=
  match l with
  | [] => Ok []
  | v :: rest =>
      m <- read_message v ;;
      ms <- read_all rest ;;
      Ok (m :: ms)
  end.

Definition read_messages (doc : pyval) : result (list Message.t) :=
  x <- py_item doc (lit "messages") ;;
  match x with
  | VList l => read_all l
  | _ => Raise TypeError
  end.

(** ** Executable instances of the library functions *)

(** [datetime.fromisoformat] and [strftime('%Y-%m-%d %H:%M:%S')] on the
    fragment [YYYY-MM-DD?HH:MM:SS] (any one character between date and
    time). The library accepts further forms (a date alone, fractions,
    offsets); the instance rejects them. The instance writes the year with
    four digits, which the platform's [%Y] does not do below the year 1000;
    the examples stay in the year 2024. *)
Module Datetime.

Record t : Type := {
  year : N; month : N; day : N;
  hour : N; minute : N; second : N
}.

Definition digit (c : char) : option N :=
  if Json.is_digit c then Some (c - 48)%N else None.

Definition number (cs : list char) : option N :=
  fold_left (fun acc c =>
               match acc, digit c with
               | Some a, Some d => Some (a * 10 + d)%N
               | _, _ => None
               end) cs (Some 0%N).

Definition is_leap (y : N) : bool :=
  (N.eqb (y mod 4) 0 && negb (N.eqb (y mod 100) 0)) || N.eqb (y mod 400) 0.

Definition days_in_month (y m : N) : N :=
  if N.eqb m 2 then (if is_leap y then 29 else 28)%N
  else if N.eqb m 4 || N.eqb m 6 || N.eqb m 9 || N.eqb m 11 then 30%N
  else 31%N.

Definition fromisoformat (s : str) : result t :=
  match s with
  | [y1; y2; y3; y4; d1; m1; m2; d2; a1; a2; _; h1; h2; c1; i1; i2; c2; s1; s2] =>
      match number [y1; y2; y3; y4], number [m1; m2], number [a1; a2],
            number [h1; h2], number [i1; i2], number [s1; s2] with
      | Some y, Some m, Some d, Some h, Some mi, Some se =>
          if N.eqb d1 45 && N.eqb d2 45 && N.eqb c1 58 && N.eqb c2 58
             && N.leb 1 y && N.leb 1 m && N.leb m 12
             && N.leb 1 d && N.leb d (days_in_month y m)
             && N.ltb h 24 && N.ltb mi 60 && N.ltb se 60
          then Ok {| year := y; month := m; day := d;
                     hour := h; minute := mi; second := se |}
          else Raise ValueError
      | _, _, _, _, _, _ => Raise ValueError
      end
  | _ => Raise ValueError
  end.

Definition pad (width : nat) (n : N) : str :=
  let ds := str_of_N n in
  repeat 48%N (width - length ds) ++ ds.

Definition strftime (dt : t) : result str :=
  Ok (pad 4 (year dt) ++ lit "-" ++ pad 2 (month dt) ++ lit "-" ++ pad 2 (day dt)
      ++ lit " " ++ pad 2 (hour dt) ++ lit ":" ++ pad 2 (minute dt) ++ lit ":"
      ++ pad 2 (second dt)).

End Datetime.

(** [str.upper] on ASCII letters; other characters are left alone. *)
Definition upper_ascii (s : str) : str :=
  List.map (fun c => if N.leb 97 c && N.leb c 122 then (c - 32)%N else c) s.

(** [str(v)] of a value whose strings are plain (printable ASCII without
    quote or backslash): the [repr] of a list quotes them as they are. *)
Fixpoint repr_plain (v : pyval) : str :=
  match v with
  | VNone => lit "None"
  | VBool true => lit "True"
  | VBool false => lit "False"
  | VInt z => str_of_Z z
  | VStr s => lit "'" ++ s ++ lit "'"
  | VList l =>
      lit "[" ++
      (fix items (l : list pyval) : str :=
         match l with
         | [] => []
         | x :: xs =>
             repr_plain x ++ (match xs with [] => [] | _ => lit ", " end) ++ items xs
         end) l ++ lit "]"
  | VDict d =>
      lit "{" ++
      (fix items (d : list (str * pyval)) : str :=
         match d with
         | [] => []
         | (k, x) :: xs =>
             lit "'" ++ k ++ lit "': " ++ repr_plain x
             ++ (match xs with [] => [] | _ => lit ", " end) ++ items xs
         end) d ++ lit "}"
  end.

(** The program with the instances plugged in. *)
Definition parse_message : Row -> option str -> result Message.t :=
  _parse_message Json.loads Datetime.fromisoformat Datetime.strftime.


Definition contact_messages : list Row -> option str -> result (list Message.t) :=
  get_contact_messages Json.loads Datetime.fromisoformat Datetime.strftime.

Definition render_txt : list Message.t -> str -> str -> result str :=
  export_txt upper_ascii repr_plain.


(* ===================================================================== *)
(** * Part II: vocabulary of the properties *)
(* ===================================================================== *)

(** The six content types of the design document: the keys of
    [CONTENT_ICONS]. *)
Definition in_enumeration (v : pyval) : bool :=
  match v with
  | VStr s => match assoc s CONTENT_ICONS with Some _ => true | None => false end
  | _ => false
  end.

(** A decoded descriptor carries a type field: under [rcvMsgContent], or
    under [sndMsgContent] when there is no [rcvMsgContent], an object whose
    [msgContent] is an object with a [type] entry. *)
Definition has_type_field (content ty : pyval) : Prop :=
  exists c d inner,
    content = VDict c /\
    (dict_lookup (lit "rcvMsgContent") c = Some (VDict d) \/
     (dict_lookup (lit "rcvMsgContent") c = None /\
      dict_lookup (lit "sndMsgContent") c = Some (VDict d))) /\
    dict_lookup (lit "msgContent") d = Some (VDict inner) /\
    dict_lookup (lit "type") inner = Some ty.

(** The date portion of a timestamp: what precedes its first space. *)
Definition date_part (ts : str) : str :=
  match split (ch " ") ts with
  | d :: _ => d
  | [] => []
  end.

(** The most recent non-empty date among the messages seen so far, starting
    from [start]. *)
Definition tracked_date (start : option str) (seen : list Message.t) : option str :=
  fold_left (fun cur m =>
               if nonempty (date_part (Message.timestamp m))
               then Some (date_part (Message.timestamp m))
               else cur)
            seen start.

(** What either loop appends, in order: date separators and message blocks. *)
Inductive piece : Type :=
| Separator (date : str)
| Block (msg : Message.t).

Fixpoint date_grouping (current_date : option str) (messages : list Message.t)
  : list piece :=
  match messages with
  | [] => []
  | m :: rest =>
      let d := date_part (Message.timestamp m) in
      if date_changes current_date d
      then Separator d :: Block m :: date_grouping (Some d) rest
      else Block m :: date_grouping current_date rest
  end.

Definition txt_piece (upper : str -> str) (py_str : pyval -> str) (p : piece)
  : result (list str) :=
  match p with
  | Separator d => Ok (txt_separator d)
  | Block m => txt_block upper py_str m
  end.

Definition html_piece (upper : str -> str) (p : piece) : result str :=
  match p with
  | Separator d => Ok (html_separator d)
  | Block m => html_block upper m
  end.

(** [acc += render(p)] for every piece. *)
Definition append_all {A P : Type} (render : P -> result (list A))
  : list P -> list A -> result (list A) :=
  for_each (fun acc p => out <- render p ;; Ok (acc ++ out)).

(** A [pyval] stands for a Python value when the keys of every dict in it
    are distinct. *)
Fixpoint distinct (keys : list str) : bool :=
  match keys with
  | [] => true
  | k :: rest => negb (existsb (str_eqb k) rest) && distinct rest
  end.

Fixpoint wf (v : pyval) : bool :=
  match v with
  | VList l => forallb wf l
  | VDict d => distinct (List.map fst d) && forallb (fun kv => wf (snd kv)) d
  | _ => true
  end.

Definition wf_message (m : Message.t) : bool :=
  wf (Message.content_type m) &&
  match Message.quote m with
  | Some q => wf (Quote.text q)
  | None => true
  end.

(** Does a value hold a string, or a key, with a surrogate code point? *)
Fixpoint val_has_surrogate (v : pyval) : bool :=
  match v with
  | VStr s => has_surrogate s
  | VList l => existsb val_has_surrogate l
  | VDict d =>
      existsb (fun kv => has_surrogate (fst kv) || val_has_surrogate (snd kv)) d
  | _ => false
  end.

Definition message_has_surrogate (m : Message.t) : bool :=
  has_surrogate (Message.timestamp m)
  || match Message.timestamp_raw m with
     | Some s => has_surrogate s
     | None => false
     end
  || has_surrogate (Message.sender m)
  || has_surrogate (Message.text m)
  || val_has_surrogate (Message.content_type m)
  || match Message.quote m with
     | Some q => val_has_surrogate (Quote.text q)
     | None => false
     end.

(** Some string of the document [export_json] is given holds a surrogate. *)
Definition unencodable (messages : list Message.t) (chat_name exported_at : str)
  : bool :=
  has_surrogate chat_name || has_surrogate exported_at
  || existsb message_has_surrogate messages.



(** Fuel that decodes the encoding of a value. *)
Fixpoint need (v : pyval) : nat :=
  match v with
  | VList l => S (list_sum (List.map (fun x => S (need x)) l))
  | VDict d => S (list_sum (List.map (fun kv => S (need (snd kv))) d))
  | _ => 1
  end.

(** What may follow an encoded value in a document: nothing, a comma or a
    line break. *)
Definition follows (rest : str) : bool :=
  match rest with
  | [] => true
  | c :: _ => N.eqb c 44 || N.eqb c 10
  end.

(** Decoding the encoding of [v], whatever follows it, gives [v] back. *)
Definition scans (v : pyval) : Prop :=
  forall level fuel rest,
    need v <= fuel -> follows rest = true ->
    Json.scan_once fuel (Json.encode level v ++ rest) = Ok (v, rest).

(** The entity [_escape_html] writes for one character. *)
Definition html_entity (c : char) : str :=
  if N.eqb c 38 then lit "&amp;"
  else if N.eqb c 60 then lit "&lt;"
  else if N.eqb c 62 then lit "&gt;"
  else if N.eqb c 34 then lit "&quot;"
  else if N.eqb c 10 then lit "<br>"
  else [c].

(** A cleaned timestamp parsed and formatted again, or the raw text. *)
Definition reformat {datetime : Type} (fromisoformat : str -> result datetime)
           (strftime : datetime -> result str) (s clean : str) : str :=
  match fromisoformat clean with
  | Ok dt => match strftime dt with Ok out => out | Raise _ => s end
  | Raise _ => s
  end.

(** ** Rows and messages used in the examples *)

Definition blank_row : Row :=
  {| chat_item_id := 1; item_ts := None; item_sent := Some 0%Z;
     item_text := None; item_deleted := Some 0%Z; item_content := None;
     item_edited := None; quoted_content := None; quoted_sent := None |}.

Definition with_content (c : str) (r : Row) : Row :=
  {| chat_item_id := chat_item_id r; item_ts := item_ts r;
     item_sent := item_sent r; item_text := item_text r;
     item_deleted := item_deleted r; item_content := Some c;
     item_edited := item_edited r; quoted_content := quoted_content r;
     quoted_sent := quoted_sent r |}.

Definition with_quoted (c : str) (r : Row) : Row :=
  {| chat_item_id := chat_item_id r; item_ts := item_ts r;
     item_sent := item_sent r; item_text := item_text r;
     item_deleted := item_deleted r; item_content := item_content r;
     item_edited := item_edited r; quoted_content := Some c;
     quoted_sent := quoted_sent r |}.

(** A row quoting a text written as the escape of a lone surrogate, and a
    row whose quote text is a number. *)
Definition row_surrogate_quote : Row :=
  with_quoted (litq "{`text`:`\ud83d`}") blank_row.


(** A received moderation report: a content type SimpleX sends that is not
    among the six. *)
Definition row_report : Row :=
  with_content
    (litq "{`rcvMsgContent`:{`msgContent`:{`type`:`report`,`text`:`spam`}}}")
    blank_row.

(** A received image. *)
Definition row_image : Row :=
  with_content
    (litq "{`rcvMsgContent`:{`msgContent`:{`type`:`image`,`text`:``}}}")
    blank_row.

(** A row that passes the [LIKE] filter although its descriptor has neither
    key: the marker occurs inside a string. *)
Definition row_event : Row :=
  with_content (litq "{`rcvGroupEvent`:{`note`:`was rcvMsgContent`}}") blank_row.

Definition message (ts : str) (txt : str) : Message.t :=
  {| Message.id := 1; Message.timestamp := ts; Message.timestamp_raw := Some ts;
     Message.sent := false; Message.sender := lit "bob"; Message.text := txt;
     Message.deleted := false; Message.edited := false;
     Message.content_type := VStr (lit "text"); Message.quote := None |}.

Definition with_quote (q : str) (m : Message.t) : Message.t :=
  {| Message.id := Message.id m; Message.timestamp := Message.timestamp m;
     Message.timestamp_raw := Message.timestamp_raw m;
     Message.sent := Message.sent m; Message.sender := Message.sender m;
     Message.text := Message.text m; Message.deleted := Message.deleted m;
     Message.edited := Message.edited m;
     Message.content_type := Message.content_type m;
     Message.quote := Some {| Quote.text := VStr q; Quote.sent_by_me := true |} |}.

Definition as_deleted (m : Message.t) : Message.t :=
  {| Message.id := Message.id m; Message.timestamp := Message.timestamp m;
     Message.timestamp_raw := Message.timestamp_raw m;
     Message.sent := Message.sent m; Message.sender := Message.sender m;
     Message.text := Message.text m; Message.deleted := true;
     Message.edited := Message.edited m;
     Message.content_type := Message.content_type m;
     Message.quote := Message.quote m |}.

Definition with_sender (who : str) (m : Message.t) : Message.t :=
  {| Message.id := Message.id m; Message.timestamp := Message.timestamp m;
     Message.timestamp_raw := Message.timestamp_raw m;
     Message.sent := Message.sent m; Message.sender := who;
     Message.text := Message.text m; Message.deleted := Message.deleted m;
     Message.edited := Message.edited m;
     Message.content_type := Message.content_type m;
     Message.quote := Message.quote m |}.

(** The three messages of the date-grouping scenario. *)
Definition day1_a : Message.t := message (lit "2024-01-01 09:00:00") (lit "one").
Definition day1_b : Message.t := message (lit "2024-01-01 10:00:00") (lit "two").
Definition day2_a : Message.t := message (lit "2024-01-02 08:00:00") (lit "three").

(** A message whose row had no timestamp. *)
Definition undated : Message.t :=
  {| Message.id := 2; Message.timestamp := []; Message.timestamp_raw := None;
     Message.sent := true; Message.sender := lit "ME"; Message.text := lit "note";
     Message.deleted := false; Message.edited := false;
     Message.content_type := VStr (lit "text"); Message.quote := None |}.

(** Sixty characters. *)
Definition sixty : str :=
  lit "0123456789abcdefghijABCDEFGHIJ0123456789abcdefghijABCDEFGHIJ".

(** A message whose sender name and text both contain markup. *)
Definition msg_markup : Message.t :=
  with_sender (lit "<b>Eve</b>")
    (message (lit "2024-01-01 09:00:00") (lit "<b>hi</b>")).

(** The deleted-message scenario: deleted, with text and with a quote. *)
Definition msg_deleted : Message.t :=
  as_deleted (with_quote (lit "see you at 5")
                (message (lit "2024-01-01 09:00:00") (lit "secret"))).

(** A message quoting sixty characters. *)
Definition msg_quoting : Message.t :=
  with_quote sixty (message (lit "2024-01-01 09:00:00") (lit "ok")).

(** ** [SimpleDBApp._find_item] *)

(** A contact or a group as [get_contacts] and [get_groups] return it. The
    name is the [local_display_name] column, a text: [_find_item] calls
    [lower] on it. *)
Module Item.
Record t : Type := {
  id : Z;
  name : str;
  display_name : option str;
  full_name : option str;
  msg_count : Z
}.
End Item.

(** [ValueError] and its subclasses. *)
Definition is_ValueError (e : exn) : bool :=
  match e with
  | ValueError | JSONDecodeError | UnicodeEncodeError => true
  | _ => false
  end.

(** [try: body  except ValueError: handler]. *)
Definition except_ValueError {A} (body handler : result A) : result A :=
  match body with
  | Ok a => Ok a
  | Raise e => if is_ValueError e then handler else Raise e
  end.

Section FindItem.

(** [int(selection)] and [str.lower]. *)
Variable py_int : str -> result Z.
Variable lower : str -> str.

Definition _find_item (items : list Item.t) (selection : str)
  : result (option Item.t) :=
  by_number <-
    except_ValueError
      (n <- py_int selection ;;
       let idx := (n - 1)%Z in
       if Z.leb 0 idx && Z.ltb idx (Z.of_nat (length items))
       then item <- index items (Z.to_nat idx) ;; Ok (Some item)
       else Ok None)
      (Ok None) ;;
  match by_number with
  | Some item => Ok (Some item)
  | None =>
      Ok (find (fun item => str_eqb (lower (Item.name item)) (lower selection))
               items)
  end.

End FindItem.

(** ** The file name of [SimpleDBApp._do_export] *)

Section SafeName.

(** The classes [\w] and [\s] of [re]; [str.strip] removes the same white
    space. *)
Variable is_word : char -> bool.
Variable is_space : char -> bool.

Fixpoint lstrip (s : str) : str :=
  match s with
  | c :: r => if is_space c then lstrip r else s
  | [] => []
  end.

(** [s.strip()]. *)
Definition strip (s : str) : str := rev (lstrip (rev (lstrip s))).

(** [re.sub(r'[^\w\s-]', '', chat_name).strip().replace(' ', '_')]. *)
Definition safe_name (chat_name : str) : str :=
  replace (ch " ") (lit "_")
    (strip (filter (fun c => is_word c || is_space c || N.eqb c 45) chat_name)).

(** [f"{safe_name}_{timestamp}"] and the three file names. *)
Definition export_base (chat_name stamp : str) : str :=
  safe_name chat_name ++ lit "_" ++ stamp.

End SafeName.

(** ** Vocabulary of the further properties *)

Definition blocks_of (pieces : list piece) : list Message.t :=
  flat_map (fun p => match p with Block m => [m] | Separator _ => [] end) pieces.

Definition separators_of (pieces : list piece) : list str :=
  flat_map (fun p => match p with Separator d => [d] | Block _ => [] end) pieces.

(** No two neighbours of the list are equal, and the first differs from
    [previous] when there is one. *)
Fixpoint no_repeat (previous : option str) (dates : list str) : Prop :=
  match dates with
  | [] => True
  | d :: rest => d <> [] /\ previous <> Some d /\ no_repeat (Some d) rest
  end.



Definition unhashable (v : pyval) : bool :=
  match v with
  | VList _ | VDict _ => true
  | _ => false
  end.

Definition with_content_type (v : pyval) (m : Message.t) : Message.t :=
  {| Message.id := Message.id m; Message.timestamp := Message.timestamp m;
     Message.timestamp_raw := Message.timestamp_raw m;
     Message.sent := Message.sent m; Message.sender := Message.sender m;
     Message.text := Message.text m; Message.deleted := Message.deleted m;
     Message.edited := Message.edited m;
     Message.content_type := v; Message.quote := Message.quote m |}.

(** The border every body line of the text format starts with. *)
Definition txt_prefix (icon : str) : str :=
  BOX_SIDE ++ lit "  " ++ (if nonempty icon then icon ++ lit " " else []).

(** Items for the examples: the second contact is named like a number. *)
Definition item (i : Z) (n : str) : Item.t :=
  {| Item.id := i; Item.name := n; Item.display_name := None;
     Item.full_name := None; Item.msg_count := 0 |}.

Definition three_items : list Item.t :=
  [ item 10 (lit "alice"); item 20 (lit "Bob"); item 30 (lit "1") ].

(** [int] on plain decimal digits, and [str.lower] on ASCII letters. *)
Definition int_decimal (s : str) : result Z :=
  match s with
  | [] => Raise ValueError
  | _ => if forallb Json.is_digit s
         then Ok (Z.of_N (Json.N_of_digits s)) else Raise ValueError
  end.

Definition lower_ascii (s : str) : str :=
  List.map (fun c => if N.leb 65 c && N.leb c 90 then (c + 32)%N else c) s.

(** [\w] and [\s] on ASCII. *)
Definition word_ascii (c : char) : bool :=
  (N.leb 48 c && N.leb c 57) || (N.leb 65 c && N.leb c 90)
  || (N.leb 97 c && N.leb c 122) || N.eqb c 95.

Definition space_ascii (c : char) : bool :=
  N.eqb c 32 || (N.leb 9 c && N.leb c 13) || (N.leb 28 c && N.leb c 31).

(** A row whose type field is a JSON array. *)
Definition row_list_type : Row :=
  with_content (litq "{`rcvMsgContent`:{`msgContent`:{`type`:[`x`]}}}") blank_row.

(** A deleted message whose content type is the list such a row gives. *)
Definition msg_list_type : Message.t :=
  with_content_type (VList [VStr (lit "x")]) msg_deleted.

(** The [msg_count] subquery of [get_contacts] and [get_groups], over the
    [chat_items] rows of one chat: [item_content LIKE '%MsgContent%']. *)
Definition counted (r : Row) : bool :=
  match item_content r with
  | Some c => like_contains (lit "MsgContent") c
  | None => false
  end.

Definition count_messages (chat_items : list Row) : nat :=
  length (filter counted chat_items).

(** The rows the message queries fetch from the same [chat_items], without
    the [ORDER BY item_ts] of the queries: only their number is used. *)
Definition fetch (chat_items : list Row) : list Row :=
  filter where_clause chat_items.

(** A row the count includes and the message queries leave out. *)
Definition row_counted_only : Row :=
  with_content (litq "{`quotedMsgContent`:1}") blank_row.

(** The JSON texts of a row decode, when they decode, to Python values:
    dicts with distinct keys, as [json.loads] builds them. *)
Definition decodes_wf (json_loads : str -> result pyval) (raw : option str) : bool :=
  match raw with
  | Some s => match json_loads s with
              | Ok v => wf v
              | Raise _ => true
              end
  | None => true
  end.

Definition row_wf (json_loads : str -> result pyval) (r : Row) : bool :=
  decodes_wf json_loads (item_content r) &&
  decodes_wf json_loads (quoted_content r).

(* ===================================================================== *)
(** * Part III: properties *)
(* ===================================================================== *)

(** ** Strings *)

Lemma str_eqb_eq (a b : str) : str_eqb a b = true <-> a = b.
Proof.
  revert b; induction a as [|x a IH]; intros [|y b]; simpl; split; intros H;
    try discriminate; try reflexivity.
  - apply andb_true_iff in H as [Hx Hab].
    apply N.eqb_eq in Hx. apply IH in Hab. congruence.
  - injection H as -> ->. rewrite N.eqb_refl. simpl. now apply IH.
Qed.

Lemma str_eqb_refl (a : str) : str_eqb a a = true.
Proof. now apply str_eqb_eq. Qed.

Lemma split_cons (sep : char) (s : str) :
  exists w ws, split sep s = w :: ws.
Proof.
  induction s as [|c r (w & ws & IH)]; simpl.
  - now exists [], [].
  - destruct (N.eqb c sep).
    + now exists [], (split sep r).
    + rewrite IH. now exists (c :: w), ws.
Qed.

Lemma split_two (sep : char) (s : str) :
  contains sep s = true -> exists a b rest, split sep s = a :: b :: rest.
Proof.
  induction s as [|c r IH]; simpl; [discriminate|].
  rewrite N.eqb_sym. destruct (N.eqb c sep) eqn:E; simpl.
  - intros _. destruct (split_cons sep r) as (w & ws & ->). now exists [], w, ws.
  - intros H. destruct (IH H) as (a & b & rest & ->). now exists (c :: a), b, rest.
Qed.

Lemma index_split_0 (sep : char) (s : str) :
  exists w, index (split sep s) 0 = Ok w /\
            match split sep s with d :: _ => d | [] => [] end = w.
Proof.
  destruct (split_cons sep s) as (w & ws & E). exists w. now rewrite E.
Qed.

(** The first field of [split] is the text before the first separator. *)
Lemma split_head (sep : char) (s : str) :
  contains sep s = true ->
  exists w ws tail,
    split sep s = w :: ws /\ s = w ++ sep :: tail /\ contains sep w = false.
Proof.
  induction s as [|c r IH]; simpl; [discriminate|].
  rewrite N.eqb_sym. destruct (N.eqb c sep) eqn:E; simpl.
  - intros _. apply N.eqb_eq in E as ->. now exists [], (split sep r), r.
  - intros H. destruct (IH H) as (w & ws & tail & -> & -> & Hw).
    exists (c :: w), ws, tail. repeat split. simpl.
    now rewrite N.eqb_sym, E.
Qed.

(** ** The Normalizer *)

Section NormalizerFacts.

Variable json_loads : str -> result pyval.
Variable datetime : Type.
Variable fromisoformat : str -> result datetime.
Variable strftime : datetime -> result str.

Local Abbreviation format_ts := (_format_timestamp fromisoformat strftime).
Local Abbreviation content_type_of := (parse_content_type json_loads).
Local Abbreviation quote_of := (parse_quote json_loads).
Local Abbreviation parse := (_parse_message json_loads fromisoformat strftime).
Local Abbreviation loop := (collect json_loads fromisoformat strftime).

Lemma try_except_total {A} (body : result A) (fallback : A) :
  exists a, try_except body (fun _ => Ok fallback) = Ok a.
Proof. destruct body; simpl; eauto. Qed.

Lemma format_timestamp_total (ts : option str) : exists s, format_ts ts = Ok s.
Proof.
  destruct ts as [[|c r]|]; simpl; eauto using try_except_total.
Qed.

Lemma content_type_total (c : option str) : exists v, content_type_of c = Ok v.
Proof.
  destruct c as [[|x r]|]; simpl; eauto using try_except_total.
Qed.

Lemma quote_total (c : option str) (b : option Z) : exists q, quote_of c b = Ok q.
Proof.
  destruct c as [[|x r]|]; simpl; eauto using try_except_total.
Qed.

(** [_parse_message] returns a message for every row. *)
Lemma parse_message_total (row : Row) (name : option str) :
  exists m, parse row name = Ok m /\
            content_type_of (item_content row) = Ok (Message.content_type m) /\
            quote_of (quoted_content row) (quoted_sent row) = Ok (Message.quote m) /\
            format_ts (item_ts row) = Ok (Message.timestamp m) /\
            Message.timestamp_raw m = item_ts row.
Proof.
  unfold _parse_message.
  destruct (content_type_total (item_content row)) as [v ->].
  destruct (quote_total (quoted_content row) (quoted_sent row)) as [q ->].
  destruct (format_timestamp_total (item_ts row)) as [s ->].
  simpl. eexists. split; [reflexivity|]. simpl. auto.
Qed.

(** The content type is the descriptor's type field when there is one. *)
Lemma content_type_field (raw : str) (content ty : pyval) :
  nonempty raw = true ->
  json_loads raw = Ok content ->
  has_type_field content ty ->
  content_type_of (Some raw) = Ok ty.
Proof.
  intros Hraw Hload (c & d & inner & -> & Hmsg & Hinner & Hty).
  destruct raw as [|x r]; [discriminate|]. simpl. rewrite Hload. simpl.
  destruct Hmsg as [Hr | [Hr Hs]]; rewrite Hr; simpl.
  - destruct (dict_lookup (lit "sndMsgContent") c); simpl;
      rewrite Hinner; simpl; now rewrite Hty.
  - rewrite Hs. simpl. rewrite Hinner. simpl. now rewrite Hty.
Qed.

(** In every other case it is [text]. *)
Lemma content_type_cases (c : option str) (v : pyval) :
  content_type_of c = Ok v ->
  v = VStr (lit "text") \/
  exists raw content,
    c = Some raw /\ nonempty raw = true /\ json_loads raw = Ok content /\
    has_type_field content v.
Proof.
  destruct c as [[|x r]|]; simpl; try (intros [= <-]; now left).
  destruct (json_loads (x :: r)) as [content|e] eqn:Hload; simpl;
    [|intros [= <-]; now left].
  destruct content as [| | | | |c]; simpl; try (intros [= <-]; now left).
  set (rcv := dict_lookup (lit "rcvMsgContent") c).
  set (snd_ := dict_lookup (lit "sndMsgContent") c).
  assert (Hshape :
    forall d, (rcv = Some (VDict d) \/ (rcv = None /\ snd_ = Some (VDict d))) ->
    try_except
      (inner <- py_get (VDict d) (lit "msgContent") (VDict []) ;;
       py_get inner (lit "type") (VStr (lit "text")))
      (fun _ => Ok (VStr (lit "text"))) = Ok v ->
    v = VStr (lit "text") \/
    exists raw content,
      Some (x :: r) = Some raw /\ nonempty raw = true /\
      json_loads raw = Ok content /\ has_type_field content v).
  { intros d Hd. simpl.
    destruct (dict_lookup (lit "msgContent") d) as [inner|] eqn:Hi; simpl;
      [|intros [= <-]; now left].
    destruct inner as [| | | | |inner]; simpl; try (intros [= <-]; now left).
    destruct (dict_lookup (lit "type") inner) as [ty|] eqn:Ht; simpl;
      intros [= <-]; [|now left].
    right. exists (x :: r), (VDict c). repeat split; auto.
    exists c, d, inner. auto. }
  fold rcv snd_.
  destruct rcv as [m|] eqn:Hr.
  - destruct snd_; simpl;
      (destruct m as [| | | | |d]; simpl; try (intros [= <-]; now left));
      apply Hshape; auto.
  - destruct snd_ as [m|] eqn:Hs; simpl.
    + destruct m as [| | | | |d]; simpl; try (intros [= <-]; now left).
      apply Hshape; auto.
    + intros [= <-]. now left.
Qed.

Lemma content_type_unparsable (raw : str) (e : exn) :
  json_loads raw = Raise e -> content_type_of (Some raw) = Ok (VStr (lit "text")).
Proof.
  intros H. destruct raw as [|x r]; simpl; [reflexivity|]. now rewrite H.
Qed.

Lemma quote_unparsable (raw : str) (b : option Z) (e : exn) :
  json_loads raw = Raise e -> quote_of (Some raw) b = Ok None.
Proof.
  intros H. destruct raw as [|x r]; simpl; [reflexivity|]. now rewrite H.
Qed.

(** A quote is built exactly from a truthy [text] entry. *)
Lemma quote_cases (c : option str) (b : option Z) (q : option Quote.t) :
  quote_of c b = Ok q ->
  match q with
  | None => True
  | Some q' =>
      Quote.sent_by_me q' = truthy_int b /\ truthy (Quote.text q') = true /\
      exists raw d,
        c = Some raw /\ json_loads raw = Ok (VDict d) /\
        dict_lookup (lit "text") d = Some (Quote.text q')
  end.
Proof.
  destruct c as [[|x r]|]; simpl; try (intros [= <-]; exact I).
  destruct (json_loads (x :: r)) as [qc|e] eqn:Hload; simpl;
    [|intros [= <-]; exact I].
  destruct qc as [| | | | |d]; simpl; try (intros [= <-]; exact I).
  destruct (dict_lookup (lit "text") d) as [t|] eqn:Ht; simpl;
    [|intros [= <-]; exact I].
  destruct (truthy t) eqn:Htr; intros [= <-]; [|exact I].
  simpl. repeat split; auto. exists (x :: r), d. auto.
Qed.

(** The timestamp, case by case. *)
Lemma format_timestamp_empty :
  format_ts None = Ok [] /\ format_ts (Some []) = Ok [].
Proof. split; reflexivity. Qed.

Lemma format_timestamp_plain (s : str) :
  contains (ch "T") s = false -> format_ts (Some s) = Ok s.
Proof.
  intros H. destruct s as [|c r]; [reflexivity|].
  unfold _format_timestamp. now rewrite H.
Qed.

Lemma format_timestamp_marked (s : str) :
  contains (ch "T") s = true ->
  exists clean,
    format_ts (Some s) = Ok (reformat fromisoformat strftime s clean) /\
    (contains (ch ".") s = true ->
       exists fraction, s = clean ++ ch "." :: fraction /\
                        contains (ch ".") clean = false) /\
    (contains (ch ".") s = false -> clean = replace (ch "Z") [] s).
Proof.
  intros HT. destruct s as [|c r]; [discriminate|].
  unfold _format_timestamp, reformat. rewrite HT.
  destruct (contains (ch ".") (c :: r)) eqn:Hdot.
  - destruct (split_head _ _ Hdot) as (w & ws & tail & Hs & Heq & Hw).
    exists w. rewrite Hs. simpl. split; [|split; [|discriminate]].
    + destruct (fromisoformat w); simpl; [destruct (strftime a)|]; reflexivity.
    + intros _. exists tail. split; assumption.
  - exists (replace (ch "Z") [] (c :: r)). split; [|split; [discriminate|reflexivity]].
    simpl bind.
    destruct (fromisoformat _); simpl; [destruct (strftime a)|]; reflexivity.
Qed.

(** The loop keeps one message per fetched row, in order. *)
Lemma collect_all (rows : list (Row * option str)) (acc : list Message.t) :
  exists ms,
    loop rows acc = Ok (acc ++ ms) /\
    Forall2 (fun r m => parse (fst r) (snd r) = Ok m) rows ms.
Proof.
  revert acc; induction rows as [|[r name] rows IH]; intros acc; simpl.
  - exists []. rewrite app_nil_r. auto.
  - destruct (parse_message_total r name) as (m & Hm & _). rewrite Hm. simpl.
    destruct (IH (acc ++ [m])) as (ms & -> & Hall).
    exists (m :: ms). rewrite <- app_assoc. simpl. auto.
Qed.

End NormalizerFacts.

(** ** The exporters *)

Lemma bind_ok {A B} (a : A) (k : A -> result B) : bind (Ok a) k = k a.
Proof. reflexivity. Qed.

Lemma msg_date_ok (msg : Message.t) :
  msg_date msg = Ok (date_part (Message.timestamp msg)).
Proof.
  unfold msg_date, date_part.
  destruct (Message.timestamp msg) as [|c r]; [reflexivity|].
  cbn [nonempty].
  destruct (split_cons (ch " ") (c :: r)) as (w & ws & ->). reflexivity.
Qed.

Lemma date_part_empty : date_part [] = [].
Proof. reflexivity. Qed.

(** A date that does not change leaves the tracked date as it was. *)
Lemma date_changes_track (cd : option str) (d : str) :
  (if date_changes cd d then Some d else cd)
  = (if nonempty d then Some d else cd).
Proof.
  unfold date_changes. destruct (nonempty d); [|reflexivity].
  destruct cd as [c|]; [|reflexivity]. simpl.
  destruct (str_eqb d c) eqn:E; [|reflexivity].
  apply str_eqb_eq in E. now subst.
Qed.

Lemma date_changes_iff (cd : option str) (d : str) :
  date_changes cd d = true <-> d <> [] /\ cd <> Some d.
Proof.
  unfold date_changes. destruct d as [|x d]; cbn [nonempty andb].
  - split; [discriminate | intros [H _]; now elim H].
  - destruct cd as [c|].
    + destruct (str_eqb (x :: d) c) eqn:E; cbn [negb].
      * apply str_eqb_eq in E. subst. split; [discriminate|].
        intros [_ H]. now elim H.
      * split; [|reflexivity]. intros _. split; [discriminate|].
        intros [= ->]. now rewrite str_eqb_refl in E.
    + split; [|reflexivity]. intros _. split; discriminate.
Qed.

Lemma tracked_date_cons (cd : option str) (m : Message.t) (rest : list Message.t) :
  tracked_date cd (m :: rest)
  = tracked_date (if date_changes cd (date_part (Message.timestamp m))
                  then Some (date_part (Message.timestamp m)) else cd) rest.
Proof. unfold tracked_date. simpl. now rewrite date_changes_track. Qed.

Lemma tracked_date_app (cd : option str) (a b : list Message.t) :
  tracked_date cd (a ++ b) = tracked_date (tracked_date cd a) b.
Proof. unfold tracked_date. apply fold_left_app. Qed.

(** After a dated message the tracked date is that message's date. *)
Lemma tracked_date_last (cd : option str) (seen : list Message.t) (m : Message.t) :
  date_part (Message.timestamp m) <> [] ->
  tracked_date cd (seen ++ [m]) = Some (date_part (Message.timestamp m)).
Proof.
  intros H. rewrite tracked_date_app. unfold tracked_date at 1. simpl.
  destruct (date_part (Message.timestamp m)); [now elim H | reflexivity].
Qed.

Lemma date_grouping_app (cd : option str) (a b : list Message.t) :
  date_grouping cd (a ++ b)
  = date_grouping cd a ++ date_grouping (tracked_date cd a) b.
Proof.
  revert cd; induction a as [|m a IH]; intros cd; [reflexivity|].
  rewrite tracked_date_cons. simpl.
  destruct (date_changes cd (date_part (Message.timestamp m)));
    simpl; now rewrite IH.
Qed.

(** The pieces around any one message of the sequence. *)
Lemma date_grouping_at (start : option str) (before after : list Message.t)
      (m : Message.t) :
  let d := date_part (Message.timestamp m) in
  date_grouping start (before ++ m :: after)
  = date_grouping start before
    ++ (if date_changes (tracked_date start before) d then [Separator d] else [])
    ++ Block m :: date_grouping (tracked_date start (before ++ [m])) after.
Proof.
  intros d. rewrite date_grouping_app. f_equal.
  rewrite tracked_date_app. unfold tracked_date at 3. simpl.
  fold d. rewrite <- date_changes_track.
  destruct (date_changes (tracked_date start before) d); reflexivity.
Qed.

Lemma time_field (ts : str) :
  contains (ch " ") ts = true -> exists t, index (split (ch " ") ts) 1 = Ok t.
Proof.
  intros H. destruct (split_two _ _ H) as (a & b & rest & ->). now exists b.
Qed.

Section RendererFacts.

Variable upper : str -> str.
Variable py_str : pyval -> str.

Local Abbreviation txt_block' := (txt_block upper py_str).
Local Abbreviation html_block' := (html_block upper).
Local Abbreviation txt_message' := (txt_message upper py_str).
Local Abbreviation html_message' := (html_message upper).

Lemma txt_time_total (msg : Message.t) : exists t, txt_time msg = Ok t.
Proof.
  unfold txt_time. destruct (contains _ _) eqn:E; eauto using time_field.
Qed.


(** Both loops are the date grouping, rendered piece by piece. *)
Lemma txt_loop_grouping (messages : list Message.t) (cd : option str)
      (lines : list str) :
  for_each txt_message' messages (cd, lines)
  = (out <- append_all (txt_piece upper py_str) (date_grouping cd messages) lines ;;
     Ok (tracked_date cd messages, out)).
Proof.
  revert cd lines; induction messages as [|m rest IH]; intros cd lines;
    [reflexivity|].
  rewrite tracked_date_cons.
  cbn [for_each date_grouping]. unfold txt_message at 1.
  rewrite msg_date_ok, bind_ok. cbn [fst snd].
  destruct (date_changes cd (date_part (Message.timestamp m)));
    unfold append_all; cbn [for_each txt_piece bind fst snd];
    destruct (txt_block upper py_str m) as [block|e]; cbn [bind fst snd];
    try reflexivity; apply IH.
Qed.

Lemma html_loop_grouping (messages : list Message.t) (cd : option str)
      (html : str) :
  for_each html_message' messages (cd, html)
  = (out <- append_all (html_piece upper) (date_grouping cd messages) html ;;
     Ok (tracked_date cd messages, out)).
Proof.
  revert cd html; induction messages as [|m rest IH]; intros cd html;
    [reflexivity|].
  rewrite tracked_date_cons.
  cbn [for_each date_grouping]. unfold html_message at 1.
  rewrite msg_date_ok, bind_ok. cbn [fst snd].
  destruct (date_changes cd (date_part (Message.timestamp m)));
    unfold append_all; cbn [for_each html_piece bind fst snd];
    destruct (html_block upper m) as [block|e]; cbn [bind fst snd];
    try reflexivity; apply IH.
Qed.

(** A message without timestamp: no separator, same tracked date. *)
Lemma txt_message_undated (msg : Message.t) (cd : option str) (lines : list str) :
  Message.timestamp msg = [] ->
  txt_message' (cd, lines) msg
  = (block <- txt_block' msg ;; Ok (cd, lines ++ block)).
Proof.
  intros H. unfold txt_message. rewrite msg_date_ok, H. reflexivity.
Qed.

Lemma html_message_undated (msg : Message.t) (cd : option str) (html : str) :
  Message.timestamp msg = [] ->
  html_message' (cd, html) msg
  = (block <- html_block' msg ;; Ok (cd, html ++ block)).
Proof.
  intros H. unfold html_message. rewrite msg_date_ok, H. reflexivity.
Qed.

(** A message on the tracked date: no separator. *)
Lemma txt_message_same_date (msg : Message.t) (d : str) (lines : list str) :
  date_part (Message.timestamp msg) = d ->
  txt_message' (Some d, lines) msg
  = (block <- txt_block' msg ;; Ok (Some d, lines ++ block)).
Proof.
  intros H. unfold txt_message. rewrite msg_date_ok, H, bind_ok.
  unfold date_changes. cbn [fst snd]. rewrite str_eqb_refl.
  now rewrite andb_false_r.
Qed.

Lemma html_message_same_date (msg : Message.t) (d : str) (html : str) :
  date_part (Message.timestamp msg) = d ->
  html_message' (Some d, html) msg
  = (block <- html_block' msg ;; Ok (Some d, html ++ block)).
Proof.
  intros H. unfold html_message. rewrite msg_date_ok, H, bind_ok.
  unfold date_changes. cbn [fst snd]. rewrite str_eqb_refl.
  now rewrite andb_false_r.
Qed.

(** Deleted messages. *)
Lemma txt_block_deleted (msg : Message.t) :
  Message.deleted msg = true ->
  txt_block' msg
  = (time <- txt_time msg ;;
     icon <- icons_get (Message.content_type msg) [] ;;
     quote_lines <- txt_quote py_str (Message.quote msg) ;;
     Ok ([txt_title msg time] ++ quote_lines ++ [TXT_DELETED; BOX_END; []])).
Proof.
  intros H. unfold txt_block, txt_content. rewrite H. reflexivity.
Qed.

Lemma html_block_deleted (msg : Message.t) :
  Message.deleted msg = true ->
  html_block' msg
  = (time <- html_time msg ;;
     quote <- html_quote (Message.quote msg) ;;
     Ok (html_title msg time ++ quote ++ HTML_DELETED ++ HTML_CLOSE)).
Proof.
  intros H. unfold html_block, html_content. rewrite H. reflexivity.
Qed.

Lemma txt_block_deleted_any_text (msg : Message.t) (other : str) :
  Message.deleted msg = true ->
  txt_block' (Message.set_text other msg) = txt_block' msg.
Proof.
  intros H. rewrite !txt_block_deleted by assumption. reflexivity.
Qed.

Lemma html_block_deleted_any_text (msg : Message.t) (other : str) :
  Message.deleted msg = true ->
  html_block' (Message.set_text other msg) = html_block' msg.
Proof.
  intros H. rewrite !html_block_deleted by assumption. reflexivity.
Qed.



End RendererFacts.

(** ** [_escape_html] *)

Lemma replace_app (old : char) (new a b : str) :
  replace old new (a ++ b) = replace old new a ++ replace old new b.
Proof. unfold replace. apply flat_map_app. Qed.

Lemma escape_html_app (a b : str) :
  _escape_html (a ++ b) = _escape_html a ++ _escape_html b.
Proof. unfold _escape_html. now rewrite !replace_app. Qed.

Lemma escape_html_char (c : char) : _escape_html [c] = html_entity c.
Proof.
  unfold html_entity.
  destruct (N.eqb_spec c 38) as [->|H1]; [reflexivity|].
  destruct (N.eqb_spec c 60) as [->|H2]; [reflexivity|].
  destruct (N.eqb_spec c 62) as [->|H3]; [reflexivity|].
  destruct (N.eqb_spec c 34) as [->|H4]; [reflexivity|].
  destruct (N.eqb_spec c 10) as [->|H5]; [reflexivity|].
  unfold _escape_html, replace, ch. simpl.
  apply N.eqb_neq in H1, H2, H3, H4, H5.
  rewrite H1. simpl. rewrite H2. simpl. rewrite H3. simpl.
  rewrite H4. simpl. now rewrite H5.
Qed.

(** Every character is replaced once, by its own entity. *)
Lemma escape_html_flat_map (s : str) : _escape_html s = flat_map html_entity s.
Proof.
  induction s as [|c r IH]; [reflexivity|].
  change (c :: r) with ([c] ++ r).
  rewrite escape_html_app, escape_html_char, IH. reflexivity.
Qed.

(** ** The JSON encoder and decoder *)

Lemma pyval_induction (P : pyval -> Prop) :
  P VNone ->
  (forall b, P (VBool b)) ->
  (forall z, P (VInt z)) ->
  (forall s, P (VStr s)) ->
  (forall l, Forall P l -> P (VList l)) ->
  (forall d, Forall (fun kv => P (snd kv)) d -> P (VDict d)) ->
  forall v, P v.
Proof.
  intros HN HB HI HS HL HD. fix IH 1. intros [ | b | z | s | l | d].
  - exact HN.
  - apply HB.
  - apply HI.
  - apply HS.
  - apply HL. revert l. fix IHl 1. intros [|x l].
    + constructor.
    + constructor; [apply IH | apply IHl].
  - apply HD. revert d. fix IHd 1. intros [|[k x] d].
    + constructor.
    + constructor; [apply IH | apply IHd].
Qed.

Module JsonFacts.
Import Json.

(** *** Strings *)

Lemma cons_char_ok (c : char) (s rest : str) :
  cons_char c (Ok (s, rest)) = Ok (c :: s, rest).
Proof. reflexivity. Qed.

Lemma scanstring_plain (c : char) (r : str) :
  c <> 34%N -> c <> 92%N -> (32 <= c)%N ->
  scanstring (c :: r) = cons_char c (scanstring r).
Proof.
  intros H1 H2 H3. cbn [scanstring].
  apply N.eqb_neq in H1, H2. rewrite H1, H2.
  destruct (N.ltb_spec c 32); [lia | reflexivity].
Qed.

Lemma scanstring_escape (e x : char) (r : str) :
  e <> 117%N -> unescape e = Some x ->
  scanstring (92%N :: e :: r) = cons_char x (scanstring r).
Proof.
  intros H1 H2. cbn [scanstring]. change (N.eqb 92 34) with false.
  change (N.eqb 92 92) with true. cbv iota.
  apply N.eqb_neq in H1. rewrite H1, H2. reflexivity.
Qed.

Lemma scanstring_u (a b c d uni : char) (r : str) :
  decode_uXXXX a b c d = Some uni -> is_high_surrogate uni = false ->
  scanstring (92%N :: 117%N :: a :: b :: c :: d :: r)
  = cons_char uni (scanstring r).
Proof.
  intros H1 H2. cbn [scanstring]. change (N.eqb 92 34) with false.
  change (N.eqb 92 92) with true. change (N.eqb 117 117) with true.
  cbv iota. rewrite H1.
  destruct r as [|? [|? [|? [|? [|? [|? ?]]]]]]; try reflexivity.
  rewrite H2. reflexivity.
Qed.

Lemma below_32 (P : N -> Prop) :
  (forall n : nat, (n < 32)%nat -> P (N.of_nat n)) ->
  forall c, (c < 32)%N -> P c.
Proof.
  intros H c Hc. rewrite <- (N2Nat.id c). apply H. lia.
Qed.

Lemma escape_char_cases (c : char) :
  (escape_char c = [c] /\ c <> 34%N /\ c <> 92%N /\ (32 <= c)%N) \/
  (exists e, escape_char c = [92%N; e] /\ e <> 117%N /\ unescape e = Some c) \/
  (exists a b c' d,
     escape_char c = [92%N; 117%N; a; b; c'; d] /\
     decode_uXXXX a b c' d = Some c /\ is_high_surrogate c = false).
Proof.
  destruct (N.ltb_spec c 32) as [Hlt|Hge].
  - revert c Hlt. apply below_32. intros n Hn.
    do 32 (destruct n as [|n];
           [first [ solve [right; left; eexists; split; [reflexivity | split; [discriminate | reflexivity]]]
                  | solve [right; right; do 4 eexists; repeat split] ] |]).
    lia.
  - unfold escape_char.
    destruct (N.eqb_spec c 34) as [->|H1].
    { right; left. eexists. split; [reflexivity | split; [discriminate | reflexivity]]. }
    destruct (N.eqb_spec c 92) as [->|H2].
    { right; left. eexists. split; [reflexivity | split; [discriminate | reflexivity]]. }
    destruct (N.eqb_spec c 10); [lia|]. destruct (N.eqb_spec c 13); [lia|].
    destruct (N.eqb_spec c 9); [lia|]. destruct (N.eqb_spec c 8); [lia|].
    destruct (N.eqb_spec c 12); [lia|].
    destruct (N.ltb_spec c 32); [lia|]. left. auto.
Qed.

Lemma scanstring_escape_char (c : char) (r : str) :
  scanstring (escape_char c ++ r) = cons_char c (scanstring r).
Proof.
  destruct (escape_char_cases c)
    as [(-> & H1 & H2 & H3) | [(e & -> & H1 & H2) | (a & b & c' & d & -> & H1 & H2)]].
  - now apply scanstring_plain.
  - now apply scanstring_escape.
  - now apply scanstring_u.
Qed.

Lemma scanstring_encode (s rest : str) :
  scanstring (flat_map escape_char s ++ 34%N :: rest) = Ok (s, rest).
Proof.
  induction s as [|c s IH]; [reflexivity|].
  cbn [flat_map]. rewrite <- app_assoc, scanstring_escape_char, IH.
  reflexivity.
Qed.

Lemma encode_str_app (s rest : str) :
  encode_str s ++ rest = 34%N :: flat_map escape_char s ++ 34%N :: rest.
Proof. unfold encode_str. cbn [app]. now rewrite <- app_assoc. Qed.

(** *** Integers *)

Lemma uint_head (d : Decimal.uint) :
  d <> Decimal.Nil ->
  exists c r, chars_of_uint d = c :: r /\ is_digit c = true /\
              (c = 48%N <-> exists d', d = Decimal.D0 d').
Proof.
  intros H. destruct d; [now elim H| ..]; cbn [chars_of_uint];
    do 2 eexists; (split; [reflexivity|]); (split; [reflexivity|]);
    (split; [try discriminate; eauto | intros [d' E]; try discriminate; reflexivity]).
Qed.

Lemma pos_to_uint_head (p : positive) :
  exists c r, chars_of_uint (Pos.to_uint p) = c :: r /\ is_digit c = true /\
              c <> 48%N.
Proof.
  pose proof (Unsigned.to_of (Pos.to_uint p)) as Hnorm.
  pose proof (Unsigned.of_to (N.pos p)) as Hof.
  change (N.to_uint (N.pos p)) with (Pos.to_uint p) in Hof.
  rewrite Hof in Hnorm. change (N.to_uint (N.pos p)) with (Pos.to_uint p) in Hnorm.
  assert (Hnil : Pos.to_uint p <> Decimal.Nil).
  { intros E. rewrite E in Hof. discriminate. }
  destruct (uint_head Hnil) as (c & r & Hc & Hd & H0).
  exists c, r. repeat split; auto. intros ->.
  destruct (proj1 H0 eq_refl) as [d' E]. rewrite E in Hnorm.
  unfold Decimal.unorm in Hnorm. cbn [Decimal.nzhead] in Hnorm.
  destruct (Decimal.nzhead d') eqn:En; try discriminate.
  - injection Hnorm as ->. rewrite E in Hof. discriminate.
  - elim (DecimalFacts.nzhead_nonzero _ _ En).
Qed.

Lemma span_digits_uint (d : Decimal.uint) (rest : str) :
  match rest with [] => True | c :: _ => is_digit c = false end ->
  span_digits (chars_of_uint d ++ rest) = (chars_of_uint d, rest).
Proof.
  intros H. induction d; cbn [chars_of_uint app span_digits];
    try (change (is_digit _) with true; cbv iota; rewrite IHd; reflexivity).
  destruct rest as [|c r]; [reflexivity|]. cbn [span_digits]. now rewrite H.
Qed.

Lemma digits_acc (d : Decimal.uint) (acc : positive) :
  fold_left (fun a c => (a * 10 + (c - 48))%N) (chars_of_uint d) (N.pos acc)
  = N.pos (Pos.of_uint_acc d acc).
Proof.
  revert acc; induction d; intros acc; cbn [chars_of_uint fold_left Pos.of_uint_acc];
    [reflexivity| ..];
    match goal with
    | |- fold_left _ _ ?x = N.pos (Pos.of_uint_acc _ ?y) =>
        replace x with (N.pos y) by lia
    end; apply IHd.
Qed.

Lemma N_of_digits_uint (d : Decimal.uint) :
  N_of_digits (chars_of_uint d) = N.of_uint d.
Proof.
  unfold N_of_digits, N.of_uint.
  induction d; cbn [chars_of_uint fold_left Pos.of_uint]; [reflexivity | exact IHd | ..];
    match goal with
    | |- fold_left _ _ ?x = N.pos (Pos.of_uint_acc _ ?y) =>
        change x with (N.pos y)
    end; apply digits_acc.
Qed.

Lemma follows_spec (rest : str) :
  follows rest = true ->
  match rest with [] => True | c :: _ => is_digit c = false end /\
  float_tail rest = false.
Proof.
  destruct rest as [|c r]; [now split|]. cbn [follows].
  intros H. apply orb_true_iff in H as [H|H]; apply N.eqb_eq in H; subst c;
    (split; [reflexivity|]); destruct r; reflexivity.
Qed.

Lemma scan_int_pos (negative : bool) (p : positive) (rest : str) :
  follows rest = true ->
  scan_int negative (str_of_N (N.pos p) ++ rest)
  = Ok (VInt (if negative then Z.neg p else Z.pos p), rest).
Proof.
  intros Hf. destruct (follows_spec _ Hf) as [Hd Hft].
  unfold str_of_N. change (N.to_uint (N.pos p)) with (Pos.to_uint p).
  destruct (pos_to_uint_head p) as (c & r & Hc & Hdig & H0).
  pose proof (span_digits_uint (Pos.to_uint p) rest Hd) as Hspan.
  pose proof (N_of_digits_uint (Pos.to_uint p)) as Hval.
  rewrite Hc in *. cbn [app] in *. unfold scan_int.
  apply N.eqb_neq in H0. rewrite H0, Hdig, Hspan. cbn [fst snd].
  rewrite Hft, Hval.
  change (Pos.to_uint p) with (N.to_uint (N.pos p)).
  rewrite Unsigned.of_to. now destruct negative.
Qed.

Lemma starts_with_cons (x : char) (p : str) (c : char) (s : str) :
  starts_with (x :: p) (c :: s)
  = if N.eqb x c then starts_with p s else None.
Proof. reflexivity. Qed.

Lemma scan_once_digit (fuel : nat) (c : char) (r : str) :
  is_digit c = true ->
  scan_once (S fuel) (c :: r) = scan_int false (c :: r).
Proof.
  intros H. pose proof H as Hd. unfold is_digit in H.
  apply andb_true_iff in H as [H1 H2]. apply N.leb_le in H1, H2.
  cbn [scan_once].
  replace (N.eqb c 34) with false by (symmetry; apply N.eqb_neq; lia).
  replace (N.eqb c 123) with false by (symmetry; apply N.eqb_neq; lia).
  replace (N.eqb c 91) with false by (symmetry; apply N.eqb_neq; lia).
  change (lit "null") with [110; 117; 108; 108]%N.
  change (lit "true") with [116; 114; 117; 101]%N.
  change (lit "false") with [102; 97; 108; 115; 101]%N.
  rewrite !starts_with_cons.
  replace (N.eqb 110 c) with false by (symmetry; apply N.eqb_neq; lia).
  replace (N.eqb 116 c) with false by (symmetry; apply N.eqb_neq; lia).
  replace (N.eqb 102 c) with false by (symmetry; apply N.eqb_neq; lia).
  replace (N.eqb c 45) with false by (symmetry; apply N.eqb_neq; lia).
  now rewrite Hd.
Qed.

Lemma scan_once_int (fuel : nat) (z : Z) (rest : str) :
  follows rest = true ->
  scan_once (S fuel) (str_of_Z z ++ rest) = Ok (VInt z, rest).
Proof.
  intros Hf. destruct z as [|p|p]; unfold str_of_Z.
  - change (str_of_N (Z.to_N 0)) with [48%N]. cbn [app].
    rewrite scan_once_digit by reflexivity. unfold scan_int.
    change (N.eqb 48 48) with true. cbv iota.
    now rewrite (proj2 (follows_spec _ Hf)).
  - change (Z.to_N (Z.pos p)) with (N.pos p).
    pose proof (scan_int_pos false p rest Hf) as H.
    unfold str_of_N in *. change (N.to_uint (N.pos p)) with (Pos.to_uint p) in *.
    destruct (pos_to_uint_head p) as (c & r & Hc & Hdig & H0).
    rewrite Hc in *. cbn [app] in *. now rewrite scan_once_digit.
  - pose proof (scan_int_pos true p rest Hf) as H.
    unfold str_of_N in *. change (N.to_uint (N.pos p)) with (Pos.to_uint p) in *.
    destruct (pos_to_uint_head p) as (c & r & Hc & Hdig & H0).
    rewrite Hc in *. cbn [app] in *. cbn [scan_once].
    change (N.eqb 45 34) with false. change (N.eqb 45 123) with false.
    change (N.eqb 45 91) with false. cbv iota.
    change (starts_with (lit "null") (45%N :: c :: r ++ rest)) with (@None str).
    change (starts_with (lit "true") (45%N :: c :: r ++ rest)) with (@None str).
    change (starts_with (lit "false") (45%N :: c :: r ++ rest)) with (@None str).
    cbv iota. change (N.eqb 45 45) with true. cbv iota. now rewrite Hdig.
Qed.

(** *** Layout *)

Lemma skip_ws_head (c : char) (r : str) :
  is_ws c = false -> skip_ws (c :: r) = c :: r.
Proof. intros H. cbn [skip_ws]. now rewrite H. Qed.

Lemma skip_ws_indent (level : nat) (rest : str) :
  skip_ws (newline_indent level ++ rest) = skip_ws rest.
Proof.
  unfold newline_indent. cbn [app skip_ws]. change (is_ws 10%N) with true. cbv iota.
  induction (2 * level)%nat as [|n IH]; [reflexivity|].
  cbn [repeat app skip_ws]. change (is_ws 32%N) with true. cbv iota. exact IH.
Qed.

Lemma digit_head (c : char) :
  is_digit c = true ->
  is_ws c = false /\ c <> 93%N /\ c <> 125%N /\ c <> 65279%N.
Proof.
  unfold is_digit, is_ws. intros H. apply andb_true_iff in H as [H1 H2].
  apply N.leb_le in H1, H2.
  repeat split; try lia.
  repeat (apply orb_false_iff; split); apply N.eqb_neq; lia.
Qed.

(** An encoded value starts with a character that is no white space, no
    closing bracket and no byte order mark. *)
Lemma encode_head (level : nat) (v : pyval) :
  exists c r, encode level v = c :: r /\
              is_ws c = false /\ c <> 93%N /\ c <> 125%N /\ c <> 65279%N.
Proof.
  assert (Hconst : forall c r, is_ws c = false -> N.eqb c 93 = false ->
                               N.eqb c 125 = false -> N.eqb c 65279 = false ->
          exists c' r', c :: r = c' :: r' /\ is_ws c' = false /\
                        c' <> 93%N /\ c' <> 125%N /\ c' <> 65279%N).
  { intros c r H1 H2 H3 H4. exists c, r.
    apply N.eqb_neq in H2, H3, H4. auto. }
  destruct v as [ | [|] | z | s | [|x xs] | [|kv d]]; cbn [encode];
    try (apply Hconst; reflexivity).
  destruct z as [|p|p]; unfold str_of_Z; try (apply Hconst; reflexivity).
  change (Z.to_N (Z.pos p)) with (N.pos p). unfold str_of_N.
  change (N.to_uint (N.pos p)) with (Pos.to_uint p).
  destruct (pos_to_uint_head p) as (c & r & -> & Hd & _).
  exists c, r. split; [reflexivity|]. now apply digit_head.
Qed.

Lemma skip_ws_encode (level : nat) (v : pyval) (rest : str) :
  skip_ws (encode level v ++ rest) = encode level v ++ rest.
Proof.
  destruct (encode_head level v) as (c & r & -> & H & _).
  cbn [app]. now apply skip_ws_head.
Qed.

Lemma encode_nonempty (level : nat) (v : pyval) : 1 <= length (encode level v).
Proof.
  destruct (encode_head level v) as (c & r & -> & _). cbn [length]. lia.
Qed.

(** *** Unfolding the scanner by one step *)

Lemma scan_once_str (fuel : nat) (s : str) :
  scan_once (S fuel) (34%N :: s)
  = (p <- scanstring s ;; Ok (VStr (fst p), snd p)).
Proof. reflexivity. Qed.

Lemma scan_once_list (fuel : nat) (s : str) :
  scan_once (S fuel) (91%N :: s)
  = match skip_ws s with
    | [] => Raise JSONDecodeError
    | c1 :: r1 =>
        if N.eqb c1 93 then Ok (VList [], r1)
        else p <- JSONArray fuel (c1 :: r1) ;; Ok (VList (fst p), snd p)
    end.
Proof. reflexivity. Qed.

Lemma scan_once_dict (fuel : nat) (s : str) :
  scan_once (S fuel) (123%N :: s)
  = match skip_ws s with
    | [] => Raise JSONDecodeError
    | c1 :: r1 =>
        if N.eqb c1 125 then Ok (VDict [], r1)
        else p <- JSONObject fuel (c1 :: r1) ;;
             Ok (VDict (dict_of_pairs (fst p)), snd p)
    end.
Proof. reflexivity. Qed.

Lemma JSONArray_step (fuel : nat) (s : str) :
  JSONArray (S fuel) s
  = (x <- scan_once fuel s ;;
     match skip_ws (snd x) with
     | [] => Raise JSONDecodeError
     | c4 :: r4 =>
         if N.eqb c4 93 then Ok ([fst x], r4)
         else if N.eqb c4 44 then
           p <- JSONArray fuel (skip_ws r4) ;; Ok (fst x :: fst p, snd p)
         else Raise JSONDecodeError
     end).
Proof. reflexivity. Qed.

Lemma JSONObject_step (fuel : nat) (s : str) :
  JSONObject (S fuel) (34%N :: s)
  = (k <- scanstring s ;;
     match skip_ws (snd k) with
     | [] => Raise JSONDecodeError
     | c2 :: r2 =>
         if N.eqb c2 58 then
           x <- scan_once fuel (skip_ws r2) ;;
           match skip_ws (snd x) with
           | [] => Raise JSONDecodeError
           | c4 :: r4 =>
               if N.eqb c4 125 then Ok ([(fst k, fst x)], r4)
               else if N.eqb c4 44 then
                 p <- JSONObject fuel (skip_ws r4) ;;
                 Ok ((fst k, fst x) :: fst p, snd p)
               else Raise JSONDecodeError
           end
         else Raise JSONDecodeError
     end).
Proof. reflexivity. Qed.

(** *** Round trip *)

Lemma encode_items_cons {A} (indent : str) (enc : A -> str) (x : A) (xs : list A) :
  encode_items indent enc (x :: xs)
  = indent ++ enc x ++ (match xs with [] => [] | _ => lit "," end)
    ++ encode_items indent enc xs.
Proof. reflexivity. Qed.

Lemma array_items (l : list pyval) :
  Forall (fun x => wf x = true -> scans x) l ->
  forallb wf l = true -> l <> [] ->
  forall level fuel rest,
    list_sum (List.map (fun x => S (need x)) l) <= fuel ->
    JSONArray fuel
      (skip_ws (encode_items (newline_indent (S level)) (encode (S level)) l
                ++ newline_indent level ++ 93%N :: rest))
    = Ok (l, rest).
Proof.
  induction 1 as [|x xs Hx Hxs IH]; intros Hwf Hne level fuel rest Hfuel;
    [now elim Hne|].
  cbn [forallb] in Hwf. apply andb_true_iff in Hwf as [Hwx Hwxs].
  cbn [List.map list_sum fold_right] in Hfuel.
  destruct fuel as [|fuel]; [cbn in Hfuel; lia|].
  rewrite encode_items_cons, <- !app_assoc, skip_ws_indent, skip_ws_encode.
  rewrite JSONArray_step.
  destruct xs as [|y ys].
  - cbn [encode_items app].
    rewrite (Hx Hwx) by (try reflexivity; cbn in Hfuel; lia).
    cbn [bind snd fst]. rewrite skip_ws_indent. reflexivity.
  - change (lit ",") with [44%N]. cbn [app].
    rewrite (Hx Hwx) by (try reflexivity; cbn in Hfuel |- *; lia).
    cbn [bind snd fst]. rewrite skip_ws_head by reflexivity.
    change (N.eqb 44 93) with false. change (N.eqb 44 44) with true. cbv iota.
    rewrite IH; [reflexivity | assumption | discriminate |].
    cbn [List.map list_sum fold_right] in *. lia.
Qed.

Lemma object_items (d : list (str * pyval)) :
  Forall (fun kv => wf (snd kv) = true -> scans (snd kv)) d ->
  forallb (fun kv => wf (snd kv)) d = true -> d <> [] ->
  forall level fuel rest,
    list_sum (List.map (fun kv => S (need (snd kv))) d) <= fuel ->
    JSONObject fuel
      (skip_ws (encode_items (newline_indent (S level))
                  (fun kv => encode_str (fst kv) ++ lit ": "
                             ++ encode (S level) (snd kv)) d
                ++ newline_indent level ++ 125%N :: rest))
    = Ok (d, rest).
Proof.
  induction 1 as [|[k x] xs Hx Hxs IH]; intros Hwf Hne level fuel rest Hfuel;
    [now elim Hne|].
  cbn [forallb snd] in Hwf, Hx. apply andb_true_iff in Hwf as [Hwx Hwxs].
  cbn [List.map list_sum fold_right snd] in Hfuel.
  destruct fuel as [|fuel]; [cbn in Hfuel; lia|].
  rewrite encode_items_cons. cbn [fst snd].
  rewrite <- !app_assoc, skip_ws_indent, encode_str_app.
  rewrite skip_ws_head by reflexivity.
  rewrite JSONObject_step, scanstring_encode. cbn [bind snd fst].
  change (lit ": ") with [58%N; 32%N]. cbn [app].
  rewrite skip_ws_head by reflexivity.
  change (N.eqb 58 58) with true. cbv iota.
  change (skip_ws (32%N :: ?s)) with (skip_ws s).
  rewrite skip_ws_encode.
  destruct xs as [|y ys].
  - cbn [encode_items app].
    rewrite (Hx Hwx) by (try reflexivity; cbn in Hfuel; lia).
    cbn [bind snd fst]. rewrite skip_ws_indent. reflexivity.
  - change (lit ",") with [44%N]. cbn [app].
    rewrite (Hx Hwx) by (try reflexivity; cbn in Hfuel |- *; lia).
    cbn [bind snd fst]. rewrite skip_ws_head by reflexivity.
    change (N.eqb 44 125) with false. change (N.eqb 44 44) with true. cbv iota.
    rewrite IH; [reflexivity | assumption | discriminate |].
    cbn [List.map list_sum fold_right] in *. lia.
Qed.

(** [dict(pairs)] leaves pairs with distinct keys as they are. *)
Lemma dict_lookup_absent (k : str) (d : list (str * pyval)) :
  existsb (str_eqb k) (List.map fst d) = false ->
  forall v, dict_set k v d = d ++ [(k, v)].
Proof.
  induction d as [|[k' v'] d IH]; intros H v; [reflexivity|].
  cbn [List.map fst existsb] in H. apply orb_false_iff in H as [H1 H2].
  cbn [dict_set app]. rewrite H1. now rewrite IH.
Qed.

Lemma existsb_app_false {A} (f : A -> bool) (a b : list A) :
  existsb f (a ++ b) = false <-> existsb f a = false /\ existsb f b = false.
Proof. rewrite existsb_app. apply orb_false_iff. Qed.

Lemma str_eqb_sym (a b : str) : str_eqb a b = str_eqb b a.
Proof.
  destruct (str_eqb a b) eqn:E; symmetry.
  - apply str_eqb_eq in E. subst. apply str_eqb_refl.
  - destruct (str_eqb b a) eqn:E'; [|reflexivity].
    apply str_eqb_eq in E'. subst. now rewrite str_eqb_refl in E.
Qed.

Lemma dict_of_pairs_distinct (d : list (str * pyval)) :
  distinct (List.map fst d) = true -> dict_of_pairs d = d.
Proof.
  unfold dict_of_pairs.
  assert (H : forall acc,
             distinct (List.map fst d) = true ->
             (forall k, In k (List.map fst acc) ->
                        existsb (str_eqb k) (List.map fst d) = false) ->
             fold_left (fun a kv => dict_set (fst kv) (snd kv) a) d acc = acc ++ d).
  { induction d as [|[k v] d IH]; intros acc Hd Hacc; cbn [fold_left].
    - now rewrite app_nil_r.
    - cbn [List.map fst distinct] in Hd. apply andb_true_iff in Hd as [Hk Hd].
      apply negb_true_iff in Hk. cbn [fst snd].
      rewrite dict_lookup_absent.
      + rewrite IH; [now rewrite <- app_assoc | assumption |].
        intros k' Hin. rewrite List.map_app in Hin. apply in_app_or in Hin as [Hin|Hin].
        * specialize (Hacc k' Hin). cbn [List.map fst existsb] in Hacc.
          now apply orb_false_iff in Hacc as [_ ?].
        * destruct Hin as [<-|[]]. exact Hk.
      + destruct (existsb (str_eqb k) (List.map fst acc)) eqn:E; [|reflexivity].
        apply existsb_exists in E as (k' & Hin & Heq).
        apply str_eqb_eq in Heq. subst k'.
        specialize (Hacc k Hin). cbn [List.map fst existsb] in Hacc.
        now rewrite str_eqb_refl in Hacc. }
  intros Hd. apply (H [] Hd). intros k [].
Qed.

(** Decoding an encoded value gives the value back. *)
Lemma scan_encode (v : pyval) : wf v = true -> scans v.
Proof.
  induction v as [ | b | z | s | l IH | d IH] using pyval_induction;
    intros Hwf level fuel rest Hfuel Hf;
    (destruct fuel as [|fuel]; [cbn in Hfuel; lia|]).
  - reflexivity.
  - destruct b; reflexivity.
  - now apply scan_once_int.
  - cbn [encode]. rewrite encode_str_app, scan_once_str, scanstring_encode.
    reflexivity.
  - destruct l as [|x xs]; [reflexivity|].
    cbn [wf] in Hwf. cbn [need] in Hfuel.
    change (encode level (VList (x :: xs)))
      with (lit "[" ++ encode_items (newline_indent (S level)) (encode (S level))
                        (x :: xs) ++ newline_indent level ++ lit "]").
    change (lit "[") with [91%N]. change (lit "]") with [93%N].
    cbn [app]. rewrite <- !app_assoc. cbn [app].
    rewrite scan_once_list.
    pose proof (@array_items (x :: xs) IH Hwf ltac:(discriminate) level fuel rest
                  ltac:(lia)) as Harr.
    rewrite encode_items_cons, <- !app_assoc, skip_ws_indent, skip_ws_encode in *.
    destruct (encode_head (S level) x) as (c & r & E & _ & Hc & _).
    rewrite E in *. cbn [app] in *. apply N.eqb_neq in Hc.
    rewrite Hc.
    match goal with
    | |- bind ?a _ = _ =>
        replace a with (@Ok (list pyval * str) (x :: xs, rest))
          by (symmetry; exact Harr)
    end.
    reflexivity.
  - destruct d as [|[k x] xs]; [reflexivity|].
    cbn [wf] in Hwf. apply andb_true_iff in Hwf as [Hkeys Hwf].
    cbn [need] in Hfuel.
    change (encode level (VDict ((k, x) :: xs)))
      with (lit "{" ++ encode_items (newline_indent (S level))
                        (fun kv => encode_str (fst kv) ++ lit ": "
                                   ++ encode (S level) (snd kv))
                        ((k, x) :: xs) ++ newline_indent level ++ lit "}").
    change (lit "{") with [123%N]. change (lit "}") with [125%N].
    cbn [app]. rewrite <- !app_assoc. cbn [app].
    rewrite scan_once_dict.
    pose proof (@object_items ((k, x) :: xs) IH Hwf ltac:(discriminate) level fuel
                  rest ltac:(lia)) as Hobj.
    rewrite encode_items_cons, <- !app_assoc, skip_ws_indent in *.
    cbn [fst snd] in *. rewrite encode_str_app in *.
    rewrite skip_ws_head in * by reflexivity.
    change (N.eqb 34 125) with false. cbv iota.
    match goal with
    | |- bind ?a _ = _ =>
        replace a with (@Ok (list (str * pyval) * str) ((k, x) :: xs, rest))
          by (symmetry; exact Hobj)
    end.
    cbn [bind fst snd]. now rewrite dict_of_pairs_distinct.
Qed.

Lemma encode_items_length {A} (indent : str) (enc : A -> str) (cost : A -> nat)
      (l : list A) :
  1 <= length indent ->
  Forall (fun x => cost x <= length (enc x)) l ->
  list_sum (List.map (fun x => S (cost x)) l) <= length (encode_items indent enc l).
Proof.
  intros Hi. induction 1 as [|x xs Hx _ IH]; [apply Nat.le_refl|].
  rewrite encode_items_cons. unfold list_sum in *. cbn [List.map fold_right].
  rewrite !length_app. lia.
Qed.

(** The fuel [loads] starts with is enough for what [dumps] wrote. *)
Lemma need_le_length (v : pyval) :
  forall level, need v <= length (encode level v).
Proof.
  induction v as [ | b | z | s | l IH | d IH] using pyval_induction; intros level;
    try apply encode_nonempty.
  - destruct l as [|x xs]; [cbn; lia|].
    change (encode level (VList (x :: xs)))
      with (lit "[" ++ encode_items (newline_indent (S level)) (encode (S level))
                        (x :: xs) ++ newline_indent level ++ lit "]").
    cbn [need]. rewrite !length_app.
    pose proof (@encode_items_length _ (newline_indent (S level)) (encode (S level))
                  need (x :: xs)) as H.
    change (length (lit "[")) with 1.
    enough (list_sum (List.map (fun x => S (need x)) (x :: xs))
            <= length (encode_items (newline_indent (S level)) (encode (S level))
                         (x :: xs))) by lia.
    apply H; [cbn; lia|]. eapply Forall_impl; [|exact IH]. intros a Ha. apply Ha.
  - destruct d as [|kv xs]; [cbn; lia|].
    change (encode level (VDict (kv :: xs)))
      with (lit "{" ++ encode_items (newline_indent (S level))
                        (fun kv => encode_str (fst kv) ++ lit ": "
                                   ++ encode (S level) (snd kv))
                        (kv :: xs) ++ newline_indent level ++ lit "}").
    cbn [need]. rewrite !length_app.
    change (length (lit "{")) with 1.
    enough (list_sum (List.map (fun kv => S (need (snd kv))) (kv :: xs))
            <= length (encode_items (newline_indent (S level))
                         (fun kv => encode_str (fst kv) ++ lit ": "
                                    ++ encode (S level) (snd kv)) (kv :: xs))) by lia.
    apply (@encode_items_length _ _ _ (fun kv => need (snd kv))); [cbn; lia|].
    eapply Forall_impl; [|exact IH]. intros a Ha. cbv beta in Ha |- *.
    rewrite !length_app. specialize (Ha (S level)). lia.
Qed.

Lemma loads_dumps (v : pyval) : wf v = true -> loads (dumps v) = Ok v.
Proof.
  intros Hwf. unfold loads, dumps.
  pose proof (skip_ws_encode 0 v []) as Hskip. rewrite app_nil_r in Hskip.
  pose proof (need_le_length v 0) as Hneed.
  pose proof (@scan_encode v Hwf 0 (2 * length (encode 0 v) + 1) []
                ltac:(lia) eq_refl) as Hscan.
  rewrite app_nil_r in Hscan.
  destruct (encode_head 0 v) as (c & r & E & _ & _ & _ & Hbom).
  rewrite E in *. cbn [starts_with_bom].
  apply N.eqb_neq in Hbom. rewrite Hbom, Hskip, Hscan. reflexivity.
Qed.

End JsonFacts.

(** ** The exported JSON document *)

Lemma read_message_dict (m : Message.t) : read_message (message_dict m) = Ok m.
Proof.
  destruct m as [i ts raw snt sndr txt del ed ct q].
  destruct raw as [raw|]; destruct q as [[qt qb]|]; reflexivity.
Qed.

Lemma read_all_dicts (messages : list Message.t) :
  read_all (List.map message_dict messages) = Ok messages.
Proof.
  induction messages as [|m ms IH]; [reflexivity|].
  cbn [List.map read_all]. now rewrite read_message_dict, IH.
Qed.

Lemma wf_message_dict (m : Message.t) :
  wf (message_dict m) = wf_message m.
Proof.
  destruct m as [i ts raw snt sndr txt del ed ct q]. unfold wf_message.
  cbn [Message.content_type Message.quote].
  destruct raw as [raw|]; destruct q as [[qt qb]|]; cbn;
    rewrite ?andb_true_r; reflexivity.
Qed.

Lemma wf_json_data (messages : list Message.t) (chat_name exported_at : str) :
  forallb wf_message messages = true ->
  wf (json_data messages chat_name exported_at) = true.
Proof.
  intros H.
  assert (Hall : forallb wf (List.map message_dict messages) = true).
  { induction messages as [|m ms IH]; [reflexivity|].
    cbn [forallb List.map] in *. apply andb_true_iff in H as [H1 H2].
    rewrite wf_message_dict, H1. now apply IH. }
  unfold json_data.
  change (wf (VDict ?d)) with
    (distinct (List.map fst d) && forallb (fun kv => wf (snd kv)) d).
  cbn [List.map fst snd forallb].
  change (wf (VList ?l)) with (forallb wf l). rewrite Hall. reflexivity.
Qed.

(** ** The file write of [export_json] *)

Lemma has_surrogate_app (a b : str) :
  has_surrogate (a ++ b) = has_surrogate a || has_surrogate b.
Proof. apply existsb_app. Qed.

Lemma surrogate_small (c : char) : (c < 55296)%N -> surrogate c = false.
Proof.
  intros H. unfold surrogate. apply andb_false_iff. left.
  apply N.leb_gt. exact H.
Qed.

Lemma has_surrogate_uint (d : Decimal.uint) : has_surrogate (chars_of_uint d) = false.
Proof. induction d; cbn [chars_of_uint]; [reflexivity | exact IHd ..]. Qed.

Lemma has_surrogate_Z (z : Z) : has_surrogate (str_of_Z z) = false.
Proof.
  destruct z; unfold str_of_Z, str_of_N; cbn [has_surrogate existsb];
    apply has_surrogate_uint.
Qed.

Lemma has_surrogate_repeat (n : nat) : has_surrogate (repeat 32%N n) = false.
Proof. induction n as [|n IH]; [reflexivity | exact IH]. Qed.

Lemma has_surrogate_indent (level : nat) :
  has_surrogate (Json.newline_indent level) = false.
Proof. unfold Json.newline_indent. apply has_surrogate_repeat. Qed.

Lemma hex_digit_plain (n : N) : (n < 16)%N -> surrogate (Json.hex_digit n) = false.
Proof.
  intros H. apply surrogate_small. unfold Json.hex_digit.
  destruct (N.ltb n 10); lia.
Qed.

(** An escape is written in ASCII; a surrogate is not escaped. *)
Lemma has_surrogate_escape (c : char) :
  has_surrogate (Json.escape_char c) = surrogate c.
Proof.
  unfold Json.escape_char.
  destruct (N.eqb_spec c 34) as [->|_]; [reflexivity|].
  destruct (N.eqb_spec c 92) as [->|_]; [reflexivity|].
  destruct (N.eqb_spec c 10) as [->|_]; [reflexivity|].
  destruct (N.eqb_spec c 13) as [->|_]; [reflexivity|].
  destruct (N.eqb_spec c 9) as [->|_]; [reflexivity|].
  destruct (N.eqb_spec c 8) as [->|_]; [reflexivity|].
  destruct (N.eqb_spec c 12) as [->|_]; [reflexivity|].
  destruct (N.ltb_spec c 32) as [Hlt|_].
  - unfold has_surrogate. cbn [existsb].
    rewrite (@surrogate_small c) by lia.
    rewrite (@hex_digit_plain (c / 16)), (@hex_digit_plain (c mod 16)).
    + reflexivity.
    + apply N.mod_lt. discriminate.
    + apply N.Div0.div_lt_upper_bound. lia.
  - unfold has_surrogate. cbn [existsb]. apply orb_false_r.
Qed.

Lemma has_surrogate_encode_str (s : str) :
  has_surrogate (Json.encode_str s) = has_surrogate s.
Proof.
  unfold Json.encode_str.
  change (has_surrogate (34%N :: ?l)) with (has_surrogate l).
  rewrite has_surrogate_app. change (has_surrogate [34%N]) with false.
  rewrite orb_false_r.
  induction s as [|c r IH]; [reflexivity|].
  cbn [flat_map]. rewrite has_surrogate_app, has_surrogate_escape, IH.
  reflexivity.
Qed.

Lemma has_surrogate_items {A} (indent : str) (enc : A -> str) (l : list A) :
  has_surrogate indent = false ->
  has_surrogate (Json.encode_items indent enc l)
  = existsb (fun x => has_surrogate (enc x)) l.
Proof.
  intros Hi. induction l as [|x xs IH]; [reflexivity|].
  rewrite JsonFacts.encode_items_cons. rewrite !has_surrogate_app, Hi, IH.
  cbn [existsb orb]. destruct xs; cbn [has_surrogate existsb orb];
    rewrite ?orb_false_r; reflexivity.
Qed.

(** The text [json.dumps] produces holds a surrogate exactly when the value
    does. *)
Lemma has_surrogate_encode (v : pyval) :
  forall level, has_surrogate (Json.encode level v) = val_has_surrogate v.
Proof.
  induction v as [ | b | z | s | l IH | d IH] using pyval_induction; intros level.
  - reflexivity.
  - destruct b; reflexivity.
  - apply has_surrogate_Z.
  - apply has_surrogate_encode_str.
  - destruct l as [|x xs]; [reflexivity|].
    change (Json.encode level (VList (x :: xs)))
      with (lit "[" ++ Json.encode_items (Json.newline_indent (S level))
                         (Json.encode (S level)) (x :: xs)
                    ++ Json.newline_indent level ++ lit "]").
    rewrite !has_surrogate_app, has_surrogate_indent,
      (@has_surrogate_items _ _ _ _ (has_surrogate_indent (S level))).
    change (has_surrogate (lit "[")) with false.
    change (has_surrogate (lit "]")) with false.
    rewrite !orb_false_r. cbn [orb].
    change (val_has_surrogate (VList (x :: xs)))
      with (existsb val_has_surrogate (x :: xs)).
    induction IH as [|y ys Hy _ IHys]; [reflexivity|].
    cbn [existsb]. now rewrite Hy, IHys.
  - destruct d as [|kv xs]; [reflexivity|].
    change (Json.encode level (VDict (kv :: xs)))
      with (lit "{" ++ Json.encode_items (Json.newline_indent (S level))
                         (fun kv => Json.encode_str (fst kv) ++ lit ": "
                                    ++ Json.encode (S level) (snd kv))
                         (kv :: xs)
                    ++ Json.newline_indent level ++ lit "}").
    rewrite !has_surrogate_app, has_surrogate_indent,
      (@has_surrogate_items _ _ _ _ (has_surrogate_indent (S level))).
    change (has_surrogate (lit "{")) with false.
    change (has_surrogate (lit "}")) with false.
    rewrite !orb_false_r. cbn [orb].
    change (val_has_surrogate (VDict (kv :: xs)))
      with (existsb (fun kv => has_surrogate (fst kv) || val_has_surrogate (snd kv))
                    (kv :: xs)).
    induction IH as [|y ys Hy _ IHys]; [reflexivity|].
    cbn [existsb]. rewrite !has_surrogate_app, has_surrogate_encode_str, Hy, IHys.
    change (has_surrogate (lit ": ")) with false. reflexivity.
Qed.

Lemma message_dict_surrogate (m : Message.t) :
  val_has_surrogate (message_dict m) = message_has_surrogate m.
Proof.
  destruct m as [i ts raw snt sndr txt del ed ct q]. unfold message_has_surrogate.
  cbn [Message.timestamp Message.timestamp_raw Message.sender Message.text
       Message.content_type Message.quote].
  unfold message_dict.
  change (val_has_surrogate (VDict ?d))
    with (existsb (fun kv => has_surrogate (fst kv) || val_has_surrogate (snd kv)) d).
  cbn [existsb fst snd Message.id Message.timestamp Message.timestamp_raw
       Message.sent Message.sender Message.text Message.deleted Message.edited
       Message.content_type Message.quote].
  change (has_surrogate (lit "id")) with false.
  change (has_surrogate (lit "timestamp")) with false.
  change (has_surrogate (lit "timestamp_raw")) with false.
  change (has_surrogate (lit "sent")) with false.
  change (has_surrogate (lit "sender")) with false.
  change (has_surrogate (lit "text")) with false.
  change (has_surrogate (lit "deleted")) with false.
  change (has_surrogate (lit "edited")) with false.
  change (has_surrogate (lit "content_type")) with false.
  change (has_surrogate (lit "quote")) with false.
  cbn [orb val_has_surrogate].
  rewrite !orb_false_r.
  destruct raw as [raw|]; destruct q as [[qt qb]|];
    cbn [opt_str val_has_surrogate quote_dict Quote.text Quote.sent_by_me
         existsb fst snd];
    try change (has_surrogate (lit "text")) with false;
    try change (has_surrogate (lit "sent_by_me")) with false;
    repeat match goal with
           | |- context [has_surrogate ?x] => destruct (has_surrogate x)
           end;
    repeat match goal with
           | |- context [val_has_surrogate ?x] => destruct (val_has_surrogate x)
           end;
    reflexivity.
Qed.

Lemma json_data_surrogate (messages : list Message.t) (chat_name exported_at : str) :
  val_has_surrogate (json_data messages chat_name exported_at)
  = unencodable messages chat_name exported_at.
Proof.
  unfold json_data, unencodable.
  change (val_has_surrogate (VDict ?d))
    with (existsb (fun kv => has_surrogate (fst kv) || val_has_surrogate (snd kv)) d).
  cbn [existsb fst snd].
  change (has_surrogate (lit "meta")) with false.
  change (has_surrogate (lit "messages")) with false.
  change (val_has_surrogate (VDict ?d))
    with (existsb (fun kv => has_surrogate (fst kv) || val_has_surrogate (snd kv)) d).
  cbn [existsb fst snd].
  change (has_surrogate (lit "chat_name")) with false.
  change (has_surrogate (lit "exported_at")) with false.
  change (has_surrogate (lit "message_count")) with false.
  change (has_surrogate (lit "tool")) with false.
  change (val_has_surrogate (VStr (lit "SimpleDB"))) with false.
  cbn [orb val_has_surrogate]. rewrite !orb_false_r.
  change (val_has_surrogate (VList ?l)) with (existsb val_has_surrogate l).
  f_equal.
  induction messages as [|m ms IH]; [reflexivity|].
  cbn [List.map existsb]. now rewrite message_dict_surrogate, IH.
Qed.

(** [export_json] writes the document exactly when no string of it holds a
    surrogate, and raises otherwise. *)
Lemma export_json_cases (messages : list Message.t) (chat_name exported_at : str) :
  export_json messages chat_name exported_at
  = if unencodable messages chat_name exported_at
    then Raise UnicodeEncodeError
    else Ok (json_text messages chat_name exported_at).
Proof.
  unfold export_json, write_utf8, json_text, Json.dumps.
  now rewrite has_surrogate_encode, json_data_surrogate.
Qed.

(** The document [json.dump] produces, decoded and read back. *)
Lemma json_text_reads_back (messages : list Message.t) (chat_name exported_at : str) :
  forallb wf_message messages = true ->
  Json.loads (json_text messages chat_name exported_at)
  = Ok (json_data messages chat_name exported_at) /\
  read_messages (json_data messages chat_name exported_at) = Ok messages.
Proof.
  intros Hwf. split.
  - unfold json_text. apply JsonFacts.loads_dumps. now apply wf_json_data.
  - unfold read_messages, json_data. cbn [py_item].
    change (dict_lookup (lit "messages") ?d) with
      (Some (VList (List.map message_dict messages))).
    cbn [bind]. apply read_all_dicts.
Qed.

(* ===================================================================== *)
(** * Part IV: the claims *)
(* ===================================================================== *)

(** C1 (as stated, refuted). The design document says the content type of
    a normalized message is always one of text, image, file, voice, video,
    link, and that an unknown type becomes text. A received moderation
    report keeps its type [report], which is none of the six. *)
Lemma C1_report_keeps_its_type :
  exists m,
    parse_message row_report None = Ok m /\
    Message.content_type m = VStr (lit "report") /\
    in_enumeration (Message.content_type m) = false.
Proof.
  eexists. split; [vm_compute; reflexivity|]. split; vm_compute; reflexivity.
Qed.

(** C1 (amended). For every raw record the Normalizer returns a message and
    never an error. Its content type is the value of the type field of the
    nested message-content object whenever the descriptor decodes to that
    shape, whatever the value is, inside or outside the enumeration; in
    every other case (descriptor absent, empty, unparsable, of another
    shape, or without a type field) it is text. *)
Theorem C1_content_type_is_type_field_or_text :
  forall (json_loads : str -> result pyval) (datetime : Type)
         (fromisoformat : str -> result datetime)
         (strftime : datetime -> result str)
         (row : Row) (name : option str),
  exists m,
    _parse_message json_loads fromisoformat strftime row name = Ok m /\
    (forall raw content ty,
        item_content row = Some raw -> nonempty raw = true ->
        json_loads raw = Ok content -> has_type_field content ty ->
        Message.content_type m = ty) /\
    (Message.content_type m = VStr (lit "text") \/
     exists raw content,
       item_content row = Some raw /\ nonempty raw = true /\
       json_loads raw = Ok content /\
       has_type_field content (Message.content_type m)).
Proof.
  intros json_loads datetime fromisoformat strftime row name.
  destruct (parse_message_total json_loads fromisoformat strftime row name)
    as (m & Hm & Hct & _).
  exists m. split; [exact Hm|]. split.
  - intros raw content ty Hraw Hne Hload Hty. rewrite Hraw in Hct.
    rewrite (content_type_field json_loads raw Hne Hload Hty) in Hct.
    now injection Hct.
  - apply (content_type_cases json_loads _ Hct).
Qed.

(** C2 (as stated, refuted). The design document says a record whose
    descriptor matches neither the received nor the sent shape is skipped.
    A group event that passes the query's filter (the marker occurs inside
    one of its strings) has neither key, and still yields a message. *)
Lemma C2_event_row_is_not_skipped :
  where_clause row_event = true /\
  (exists d,
      Json.loads (litq "{`rcvGroupEvent`:{`note`:`was rcvMsgContent`}}")
      = Ok (VDict d) /\
      dict_lookup (lit "rcvMsgContent") d = None /\
      dict_lookup (lit "sndMsgContent") d = None) /\
  exists m,
    contact_messages [row_event] None = Ok [m] /\
    Message.content_type m = VStr (lit "text").
Proof.
  split; [vm_compute; reflexivity|]. split.
  - eexists. split; [vm_compute; reflexivity|]. split; vm_compute; reflexivity.
  - eexists. split; vm_compute; reflexivity.
Qed.

(** C2 (amended). The Normalizer maps every raw record it is given to
    exactly one message and never skips: the loops of both queries return
    one message per fetched row, in the order of the rows, each the result
    of [_parse_message] on its row. Records that are no messages are left
    out only by the substring filter of the query. *)
Theorem C2_one_message_per_row :
  forall (json_loads : str -> result pyval) (datetime : Type)
         (fromisoformat : str -> result datetime)
         (strftime : datetime -> result str),
  (forall (fetched : list Row) (name : option str),
      exists ms,
        get_contact_messages json_loads fromisoformat strftime fetched name = Ok ms /\
        length ms = length fetched /\
        Forall2 (fun r m =>
                   _parse_message json_loads fromisoformat strftime r name = Ok m)
                fetched ms) /\
  (forall (fetched : list (Row * option str)),
      exists ms,
        get_group_messages json_loads fromisoformat strftime fetched = Ok ms /\
        length ms = length fetched /\
        Forall2 (fun r m =>
                   _parse_message json_loads fromisoformat strftime (fst r) (snd r)
                   = Ok m)
                fetched ms).
Proof.
  intros json_loads datetime fromisoformat strftime. split.
  - intros fetched name. unfold get_contact_messages.
    destruct (collect_all json_loads fromisoformat strftime
                (List.map (fun r => (r, name)) fetched) [])
      as (ms & Hms & Hall).
    exists ms. split; [exact Hms|].
    assert (H2 : Forall2 (fun r m =>
                   _parse_message json_loads fromisoformat strftime r name = Ok m)
                fetched ms).
    { clear Hms. revert ms Hall. induction fetched as [|r rs IH]; intros ms Hall;
        inversion Hall; subst; constructor; auto. }
    split; [symmetry; eapply Forall2_length; exact H2 | exact H2].
  - intros fetched. unfold get_group_messages.
    destruct (collect_all json_loads fromisoformat strftime fetched [])
      as (ms & Hms & Hall).
    exists ms. split; [exact Hms|].
    split; [symmetry; eapply Forall2_length; exact Hall | exact Hall].
Qed.

(** Supporting facts for C3: what [_escape_html] does to the text of the
    design document's example, and that it escapes each character once. *)
Lemma escape_html_example :
  _escape_html (litq "<b>&`test`</b>" ++ nl ++ lit "line2")
  = lit "&lt;b&gt;&amp;&quot;test&quot;&lt;/b&gt;<br>line2".
Proof. vm_compute. reflexivity. Qed.

(** C3 (the code departs from the claim). The design document says every
    piece of user-supplied text in the HTML document is escaped. The text
    of a message is; the sender's display name is embedded as it is. For a
    sender named [<b>Eve</b>] with the text [<b>hi</b>]: *)
Theorem C3_sender_is_embedded_unescaped :
  html_block upper_ascii msg_markup
  = Ok (join nl
          [ litq "            <div class=`msg received`>";
            litq "                <div class=`msg-header`>";
            litq "                    <span class=`sender`><b>Eve</b></span>";
            litq "                    <span><span class=`time`>09:00:00</span></span>";
            litq "                </div>";
            litq "                <div class=`content`>&lt;b&gt;hi&lt;/b&gt;</div>";
            litq "            </div>";
            [] ]).
Proof. vm_compute. reflexivity. Qed.




(** C5. The Normalizer returns a message for every record, whatever the
    library functions do, and every malformed field takes its fallback: an
    unparsable content descriptor gives the content type text; an absent,
    empty or unparsable quote descriptor gives no quote; an absent or empty
    timestamp gives the empty string; a timestamp without the marker [T]
    is kept as it is; a timestamp with the marker is cut at its first dot
    (or loses every [Z] when it has no dot) and, when parsing or
    formatting that cleaned text fails, the raw text is kept. Only a
    successful parse and format replaces the raw text, by the formatted
    date. *)
Theorem C5_normalizer_never_raises :
  forall (json_loads : str -> result pyval) (datetime : Type)
         (fromisoformat : str -> result datetime)
         (strftime : datetime -> result str)
         (row : Row) (name : option str),
  exists m,
    _parse_message json_loads fromisoformat strftime row name = Ok m /\
    (forall raw e,
        item_content row = Some raw -> json_loads raw = Raise e ->
        Message.content_type m = VStr (lit "text")) /\
    (forall raw e,
        quoted_content row = Some raw -> json_loads raw = Raise e ->
        Message.quote m = None) /\
    (truthy_text (quoted_content row) = false -> Message.quote m = None) /\
    (truthy_text (item_ts row) = false -> Message.timestamp m = []) /\
    (forall s,
        item_ts row = Some s -> contains (ch "T") s = false ->
        Message.timestamp m = s) /\
    (forall s,
        item_ts row = Some s -> contains (ch "T") s = true ->
        exists clean,
          (contains (ch ".") s = true ->
             exists fraction, s = clean ++ ch "." :: fraction /\
                              contains (ch ".") clean = false) /\
          (contains (ch ".") s = false -> clean = replace (ch "Z") [] s) /\
          (forall e, fromisoformat clean = Raise e -> Message.timestamp m = s) /\
          (forall dt e,
              fromisoformat clean = Ok dt -> strftime dt = Raise e ->
              Message.timestamp m = s) /\
          (forall dt out,
              fromisoformat clean = Ok dt -> strftime dt = Ok out ->
              Message.timestamp m = out)).
Proof.
  intros json_loads datetime fromisoformat strftime row name.
  destruct (parse_message_total json_loads fromisoformat strftime row name)
    as (m & Hm & Hct & Hq & Hts & _).
  exists m. split; [exact Hm|]. split; [|split; [|split; [|split; [|split]]]].
  - intros raw e Hraw Hload. rewrite Hraw in Hct.
    rewrite (content_type_unparsable json_loads raw Hload) in Hct.
    now injection Hct.
  - intros raw e Hraw Hload. rewrite Hraw in Hq.
    rewrite (quote_unparsable json_loads raw (quoted_sent row) Hload) in Hq.
    now injection Hq.
  - intros Hnone. destruct (quoted_content row) as [[|c r]|];
      try discriminate; cbn in Hq; now injection Hq.
  - intros Hnone. destruct (item_ts row) as [[|c r]|];
      try discriminate; cbn in Hts; now injection Hts.
  - intros s Hs HT. rewrite Hs in Hts.
    rewrite (format_timestamp_plain fromisoformat strftime s HT) in Hts.
    now injection Hts.
  - intros s Hs HT. rewrite Hs in Hts.
    destruct (format_timestamp_marked fromisoformat strftime s HT)
      as (clean & Hfmt & Hdot & Hnodot).
    rewrite Hfmt in Hts. injection Hts as <-.
    exists clean. split; [exact Hdot|]. split; [exact Hnodot|].
    unfold reformat. split; [|split].
    + intros e He. now rewrite He.
    + intros dt e Hdt He. now rewrite Hdt, He.
    + intros dt out Hdt Hout. now rewrite Hdt, Hout.
Qed.

(** C6 (as stated, refuted). The design document promises the round trip
    for every sequence of messages. A quote descriptor can spell its text
    as the escape of a lone surrogate; the Normalizer keeps the decoded
    text, and the JSON renderer, which writes it unescaped through a UTF-8
    file, raises on it: there is no document to read back. *)
Lemma C6_lone_surrogate_is_not_written :
  exists m,
    contact_messages [row_surrogate_quote] None = Ok [m] /\
    Message.quote m
    = Some {| Quote.text := VStr [55357%N]; Quote.sent_by_me := false |} /\
    forallb wf_message [m] = true /\
    export_json [m] (lit "bob") (lit "2024-05-05T10:00:00")
    = Raise UnicodeEncodeError.
Proof.
  eexists. split; [vm_compute; reflexivity|].
  split; [reflexivity|]. split; vm_compute; reflexivity.
Qed.

(** C6 (amended). When no string of the messages, of the chat label or of
    the export time holds a surrogate code point, the JSON renderer writes
    a document, and reading its messages array back gives the messages it
    was given, equal in every field and in the same order. When some
    string holds one, the renderer raises [UnicodeEncodeError]. *)
Theorem C6_json_round_trip :
  forall (messages : list Message.t) (chat_name exported_at : str),
    forallb wf_message messages = true ->
    (unencodable messages chat_name exported_at = false ->
     exists text doc,
       export_json messages chat_name exported_at = Ok text /\
       Json.loads text = Ok doc /\
       read_messages doc = Ok messages) /\
    (unencodable messages chat_name exported_at = true ->
     export_json messages chat_name exported_at = Raise UnicodeEncodeError).
Proof.
  intros messages chat_name exported_at Hwf.
  rewrite export_json_cases. split; intros ->; [|reflexivity].
  destruct (json_text_reads_back messages chat_name exported_at Hwf)
    as [Hload Hread].
  exists (json_text messages chat_name exported_at),
         (json_data messages chat_name exported_at).
  split; [reflexivity|]. split; [exact Hload | exact Hread].
Qed.

Lemma C6_round_trip_of_two_messages :
  forallb wf_message [msg_quoting; undated] = true /\
  unencodable [msg_quoting; undated] (lit "bob")
    (lit "2024-05-05T10:00:00.123456") = false /\
  exists text doc,
    export_json [msg_quoting; undated] (lit "bob")
      (lit "2024-05-05T10:00:00.123456") = Ok text /\
    Json.loads text = Ok doc /\
    read_messages doc = Ok [msg_quoting; undated].
Proof.
  split; [reflexivity|]. split; [reflexivity|].
  apply (C6_json_round_trip [msg_quoting; undated] (lit "bob")
           (lit "2024-05-05T10:00:00.123456")); reflexivity.
Defined.

(** C7 (as stated, refuted). The design document says a separator is
    written exactly when the date of a message differs from the date of
    the message immediately before it. After a message of 2024-01-01 and a
    message without timestamp, a second message of 2024-01-01 has a date
    that differs from its predecessor's (which has none), and no separator
    is written before it. *)
Lemma C7_no_separator_after_undated :
  date_part (Message.timestamp day1_b) <> date_part (Message.timestamp undated) /\
  exists a u b,
    txt_block upper_ascii repr_plain day1_a = Ok a /\
    txt_block upper_ascii repr_plain undated = Ok u /\
    txt_block upper_ascii repr_plain day1_b = Ok b /\
    for_each (txt_message upper_ascii repr_plain) [day1_a; undated; day1_b]
      (None, [])
    = Ok (Some (lit "2024-01-01"),
          txt_separator (lit "2024-01-01") ++ a ++ u ++ b).
Proof.
  split; [discriminate|].
  do 3 eexists. repeat split; vm_compute; reflexivity.
Qed.

(** C7 (amended). Both renderers make one pass over the messages and write
    a date separator exactly when the date of a message (what precedes the
    first space of its timestamp) is not empty and differs from the date
    of the most recent earlier message whose date is not empty, or when no
    earlier message has a date. After a message with a date, that is the
    date of the message immediately before. For the three timestamps of
    the scenario they write the separator of 2024-01-01, two blocks, the
    separator of 2024-01-02 and one block. *)
Theorem C7_date_grouping :
  forall (upper : str -> str) (py_str : pyval -> str),
  (forall messages lines,
      for_each (txt_message upper py_str) messages (None, lines)
      = (out <- append_all (txt_piece upper py_str)
                  (date_grouping None messages) lines ;;
         Ok (tracked_date None messages, out))) /\
  (forall messages html,
      for_each (html_message upper) messages (None, html)
      = (out <- append_all (html_piece upper)
                  (date_grouping None messages) html ;;
         Ok (tracked_date None messages, out))) /\
  (forall before m after,
      date_grouping None (before ++ m :: after)
      = date_grouping None before
        ++ (if date_changes (tracked_date None before)
                            (date_part (Message.timestamp m))
            then [Separator (date_part (Message.timestamp m))] else [])
        ++ Block m :: date_grouping (tracked_date None (before ++ [m])) after) /\
  (forall cd d, date_changes cd d = true <-> d <> [] /\ cd <> Some d) /\
  (forall seen p,
      date_part (Message.timestamp p) <> [] ->
      tracked_date None (seen ++ [p]) = Some (date_part (Message.timestamp p))) /\
  date_grouping None [day1_a; day1_b; day2_a]
  = [ Separator (lit "2024-01-01"); Block day1_a; Block day1_b;
      Separator (lit "2024-01-02"); Block day2_a ].
Proof.
  intros upper py_str.
  split; [|split; [|split; [|split; [|split]]]].
  - intros. apply txt_loop_grouping.
  - intros. apply html_loop_grouping.
  - intros. apply date_grouping_at.
  - apply date_changes_iff.
  - intros. now apply tracked_date_last.
  - reflexivity.
Qed.





(** C10. A message with an empty timestamp gets no separator and leaves
    the tracked date as it is: it is written inside the current run, or
    before any separator when no dated message came first, and a later
    message on the tracked date gets no separator either. *)
Theorem C10_undated_message_keeps_the_run :
  forall (upper : str -> str) (py_str : pyval -> str) (msg : Message.t),
    Message.timestamp msg = [] ->
    (forall cd lines,
        txt_message upper py_str (cd, lines) msg
        = (block <- txt_block upper py_str msg ;; Ok (cd, lines ++ block))) /\
    (forall cd html,
        html_message upper (cd, html) msg
        = (block <- html_block upper msg ;; Ok (cd, html ++ block))) /\
    (forall cd rest,
        date_grouping cd (msg :: rest) = Block msg :: date_grouping cd rest) /\
    (forall d next rest,
        date_part (Message.timestamp next) = d ->
        date_grouping (Some d) (msg :: next :: rest)
        = Block msg :: Block next :: date_grouping (Some d) rest).
Proof.
  intros upper py_str msg H. split; [|split; [|split]].
  - intros. now apply txt_message_undated.
  - intros. now apply html_message_undated.
  - intros. cbn [date_grouping]. now rewrite H.
  - intros d next rest Hd. cbn [date_grouping]. rewrite H, Hd.
    cbn [date_part split date_changes nonempty andb].
    unfold date_changes. rewrite str_eqb_refl, andb_false_r. reflexivity.
Qed.

Lemma C10_undated_between_two_of_a_day :
  Message.timestamp undated = [] /\
  date_grouping None [undated; day1_a; undated; day1_b]
  = [ Block undated; Separator (lit "2024-01-01"); Block day1_a;
      Block undated; Block day1_b ].
Proof.
  split; [reflexivity|].
  destruct (C10_undated_message_keeps_the_run upper_ascii repr_plain undated
              eq_refl) as (_ & _ & Hfirst & _).
  rewrite (Hfirst None [day1_a; undated; day1_b]). vm_compute. reflexivity.
Defined.

(* ===================================================================== *)
(** * Part V: further properties of the code *)
(* ===================================================================== *)

(** ** The Normalizer *)

(** X1. The sender label is [ME] for a sent record whatever the name; for
    a received one it is the counterpart name, or [CONTACT] when the name
    is absent or empty. The raw timestamp and the id are kept, and the text
    is the empty string for NULL. *)
Theorem X1_sender_and_plain_fields :
  forall (json_loads : str -> result pyval) (datetime : Type)
         (fromisoformat : str -> result datetime)
         (strftime : datetime -> result str)
         (row : Row) (name : option str),
  exists m,
    _parse_message json_loads fromisoformat strftime row name = Ok m /\
    (truthy_int (item_sent row) = true ->
     Message.sent m = true /\ Message.sender m = lit "ME") /\
    (truthy_int (item_sent row) = false ->
     Message.sent m = false /\
     (forall n, name = Some n -> n <> [] -> Message.sender m = n) /\
     (name = None \/ name = Some [] -> Message.sender m = lit "CONTACT")) /\
    Message.id m = chat_item_id row /\
    Message.timestamp_raw m = item_ts row /\
    (item_text row = None -> Message.text m = []) /\
    (forall s, item_text row = Some s -> Message.text m = s) /\
    Message.deleted m = truthy_int (item_deleted row) /\
    Message.edited m = truthy_int (item_edited row).
Proof.
  intros json_loads datetime fromisoformat strftime row name.
  unfold _parse_message.
  destruct (content_type_total json_loads (item_content row)) as [v ->].
  destruct (quote_total json_loads (quoted_content row) (quoted_sent row)) as [q ->].
  destruct (format_timestamp_total fromisoformat strftime (item_ts row)) as [s ->].
  cbn [bind]. eexists. split; [reflexivity|]. cbn.
  split; [intros ->; auto|]. split.
  - intros ->. split; [reflexivity|]. split.
    + intros n -> Hn. destruct n; [now elim Hn | reflexivity].
    + intros [-> | ->]; reflexivity.
  - repeat split.
    + now intros ->.
    + now intros s' ->.
Qed.

Lemma X1_received_without_name :
  truthy_int (item_sent blank_row) = false /\
  exists m,
    parse_message blank_row (Some []) = Ok m /\
    Message.sender m = lit "CONTACT" /\ Message.text m = [].
Proof.
  split; [reflexivity|].
  destruct (X1_sender_and_plain_fields Json.loads Datetime.fromisoformat
              Datetime.strftime blank_row (Some []))
    as (m & Hm & _ & Hrecv & _ & _ & Htext & _).
  exists m. split; [exact Hm|].
  destruct (Hrecv eq_refl) as (_ & _ & Hnone).
  split; [apply Hnone; now right | now apply Htext].
Defined.

(** X2. A quote is built exactly when the quote descriptor decodes to an
    object whose [text] entry is truthy; it then carries that entry and the
    truth value of the quote's sent flag. A missing or falsy [text] (empty
    string, null, zero) gives no quote. *)
Theorem X2_quote_is_built_from_truthy_text :
  forall (json_loads : str -> result pyval) (raw : str) (sent_flag : option Z)
         (d : list (str * pyval)),
    nonempty raw = true ->
    json_loads raw = Ok (VDict d) ->
    (forall t, dict_lookup (lit "text") d = Some t -> truthy t = true ->
       parse_quote json_loads (Some raw) sent_flag
       = Ok (Some {| Quote.text := t; Quote.sent_by_me := truthy_int sent_flag |})) /\
    (forall t, dict_lookup (lit "text") d = Some t -> truthy t = false ->
       parse_quote json_loads (Some raw) sent_flag = Ok None) /\
    (dict_lookup (lit "text") d = None ->
       parse_quote json_loads (Some raw) sent_flag = Ok None).
Proof.
  intros json_loads raw sent_flag d Hraw Hload.
  destruct raw as [|c r]; [discriminate|].
  unfold parse_quote. rewrite Hload. cbn [bind py_get try_except].
  split; [|split].
  - intros t -> Ht. cbn [bind try_except]. now rewrite Ht.
  - intros t -> Ht. cbn [bind try_except]. now rewrite Ht.
  - intros ->. reflexivity.
Qed.

Lemma X2_quote_with_null_text :
  nonempty (litq "{`text`:null}") = true /\
  parse_quote Json.loads (Some (litq "{`text`:null}")) (Some 1%Z) = Ok None.
Proof.
  split; [reflexivity|].
  refine (proj1 (proj2 (@X2_quote_is_built_from_truthy_text Json.loads
                          (litq "{`text`:null}") (Some 1%Z)
                          [(lit "text", VNone)] eq_refl _))
                VNone eq_refl eq_refl).
  vm_compute. reflexivity.
Defined.

(** ** [_escape_html] *)

Lemma contains_app (c : char) (a b : str) :
  contains c (a ++ b) = contains c a || contains c b.
Proof. unfold contains. apply existsb_app. Qed.

Lemma contains_flat_map (c : char) (f : char -> str) (s : str) :
  (forall x, contains c (f x) = false) -> contains c (flat_map f s) = false.
Proof.
  intros H. induction s as [|x r IH]; [reflexivity|].
  cbn [flat_map]. now rewrite contains_app, H, IH.
Qed.

Lemma html_entity_cases (c : char) :
  (c = 38%N /\ html_entity c = lit "&amp;") \/
  (c = 60%N /\ html_entity c = lit "&lt;") \/
  (c = 62%N /\ html_entity c = lit "&gt;") \/
  (c = 34%N /\ html_entity c = lit "&quot;") \/
  (c = 10%N /\ html_entity c = lit "<br>") \/
  (c <> 38%N /\ c <> 60%N /\ c <> 62%N /\ c <> 34%N /\ c <> 10%N /\
   html_entity c = [c]).
Proof.
  unfold html_entity.
  destruct (N.eqb_spec c 38); [now left|]. right.
  destruct (N.eqb_spec c 60); [now left|]. right.
  destruct (N.eqb_spec c 62); [now left|]. right.
  destruct (N.eqb_spec c 34); [now left|]. right.
  destruct (N.eqb_spec c 10); [now left|]. right. repeat split; assumption.
Qed.

(** X3. [_escape_html] replaces every character on its own, once: an
    ampersand written by a later substitution is never escaped again. Its
    result holds no double quote and no line break, and an angle bracket
    occurs in it only when the text had a line break. *)
Theorem X3_escape_html_is_per_character :
  forall s : str,
    _escape_html s = flat_map html_entity s /\
    contains 34%N (_escape_html s) = false /\
    contains 10%N (_escape_html s) = false /\
    (contains 10%N s = false ->
     contains (ch "<") (_escape_html s) = false /\
     contains (ch ">") (_escape_html s) = false).
Proof.
  intros s. rewrite escape_html_flat_map. split; [reflexivity|].
  assert (Hq : forall x, contains 34%N (html_entity x) = false).
  { intros x.
    destruct (html_entity_cases x)
      as [[_ ->]|[[_ ->]|[[_ ->]|[[_ ->]|[[_ ->]|(_ & _ & _ & H & _ & ->)]]]]];
      try reflexivity.
    unfold contains. cbn [existsb]. apply N.eqb_neq in H.
    now rewrite N.eqb_sym, H. }
  assert (Hn : forall x, contains 10%N (html_entity x) = false).
  { intros x.
    destruct (html_entity_cases x)
      as [[_ ->]|[[_ ->]|[[_ ->]|[[_ ->]|[[_ ->]|(_ & _ & _ & _ & H & ->)]]]]];
      try reflexivity.
    unfold contains. cbn [existsb]. apply N.eqb_neq in H.
    now rewrite N.eqb_sym, H. }
  split; [now apply contains_flat_map|]. split; [now apply contains_flat_map|].
  intros Hs.
  induction s as [|x r IH]; [split; reflexivity|].
  cbn [contains existsb] in Hs. apply orb_false_iff in Hs as [Hx Hr].
  specialize (IH Hr). destruct IH as [IH1 IH2].
  cbn [flat_map]. rewrite !contains_app, IH1, IH2, !orb_false_r.
  apply N.eqb_neq in Hx.
  destruct (html_entity_cases x)
    as [[_ ->]|[[_ ->]|[[_ ->]|[[_ ->]|[[E _]|(_ & H1 & H2 & _ & _ & ->)]]]]];
    try (split; reflexivity).
  - subst x. now elim Hx.
  - change (ch "<") with 60%N. change (ch ">") with 62%N.
    unfold contains. cbn [existsb]. apply N.eqb_neq in H1, H2.
    rewrite (N.eqb_sym 60 x), (N.eqb_sym 62 x), H1, H2. split; reflexivity.
Qed.

Lemma X3_escape_without_line_break :
  contains 10%N (litq "a<b> & `c`") = false /\
  _escape_html (litq "a<b> & `c`") = lit "a&lt;b&gt; &amp; &quot;c&quot;" /\
  contains (ch "<") (_escape_html (litq "a<b> & `c`")) = false.
Proof.
  split; [reflexivity|]. split; [reflexivity|].
  exact (proj1 (proj2 (proj2 (proj2 (X3_escape_html_is_per_character
                                       (litq "a<b> & `c`")))) eq_refl)).
Defined.

(** X4. [_escape_html] loses nothing: two texts with the same escaped form
    are the same text. *)
Theorem X4_escape_html_is_injective :
  forall a b : str, _escape_html a = _escape_html b -> a = b.
Proof.
  intros a b. rewrite !escape_html_flat_map. revert b.
  induction a as [|x a IH]; intros [|y b] H.
  - reflexivity.
  - exfalso. cbn [flat_map] in H.
    destruct (html_entity_cases y)
      as [[_ E]|[[_ E]|[[_ E]|[[_ E]|[[_ E]|(_ & _ & _ & _ & _ & E)]]]]];
      rewrite E in H; discriminate.
  - exfalso. cbn [flat_map] in H.
    destruct (html_entity_cases x)
      as [[_ E]|[[_ E]|[[_ E]|[[_ E]|[[_ E]|(_ & _ & _ & _ & _ & E)]]]]];
      rewrite E in H; discriminate.
  - cbn [flat_map] in H.
    destruct (html_entity_cases x)
      as [[Ex E]|[[Ex E]|[[Ex E]|[[Ex E]|[[Ex E]|(X1 & X2 & X3 & X4 & X5 & E)]]]]];
    destruct (html_entity_cases y)
      as [[Ey F]|[[Ey F]|[[Ey F]|[[Ey F]|[[Ey F]|(Y1 & Y2 & Y3 & Y4 & Y5 & F)]]]]];
    rewrite E, F in H; cbn in H; try discriminate;
    try (injection H as H; subst; f_equal; now apply IH);
    try (injection H as H0 H; subst; congruence).
Qed.

Lemma X4_same_escaped_form :
  _escape_html (lit "a&b") = _escape_html (lit "a&b") /\
  lit "a&b" = lit "a&b".
Proof.
  split; [reflexivity|].
  exact (X4_escape_html_is_injective (lit "a&b") (lit "a&b") eq_refl).
Defined.

(** ** The exporters *)


Lemma for_each_raises {S A} (step : S -> A -> result S) (xs : list A) (x : A) :
  In x xs -> (forall st, exists e, step st x = Raise e) ->
  forall st, exists e, for_each step xs st = Raise e.
Proof.
  induction xs as [|y xs IH]; intros Hin Hx st; [elim Hin|].
  cbn [for_each]. destruct (step st y) as [st'|e] eqn:E.
  - cbn [bind]. destruct Hin as [->|Hin]; [|now apply IH].
    destruct (Hx st) as [e' He']. congruence.
  - now exists e.
Qed.

Section ExporterFacts.

Variable upper : str -> str.
Variable py_str : pyval -> str.



End ExporterFacts.



(** X6. The text exporter looks the icon up before anything else of a
    message: when the content type of any message is a list or a dict (a
    type field that is a JSON array or object) the whole export raises,
    even if that message is deleted or has text. The HTML exporter looks
    the icon up only for a message that is neither deleted nor has text:
    for the others its block does not depend on the content type. *)
Theorem X6_unhashable_content_type :
  forall (upper : str -> str) (py_str : pyval -> str)
         (messages : list Message.t) (m : Message.t) (chat_name exported : str),
    In m messages ->
    unhashable (Message.content_type m) = true ->
    txt_block upper py_str m = Raise TypeError /\
    (exists e, export_txt upper py_str messages chat_name exported = Raise e) /\
    (Message.deleted m = true \/ nonempty (Message.text m) = true ->
     forall v, html_block upper (with_content_type v m) = html_block upper m).
Proof.
  intros upper py_str messages m chat_name exported Hin Hun.
  assert (Hblock : txt_block upper py_str m = Raise TypeError).
  { unfold txt_block. destruct (txt_time_total m) as [t ->]. cbn [bind].
    destruct (Message.content_type m); try discriminate; reflexivity. }
  split; [exact Hblock|]. split.
  - unfold export_txt.
    destruct (@for_each_raises _ _ (txt_message upper py_str) messages m Hin)
      with (st := (@None str, txt_header chat_name exported (length messages)))
      as [e ->]; [|now exists e].
    intros st. unfold txt_message. rewrite msg_date_ok. cbn [bind].
    rewrite Hblock. now exists TypeError.
  - intros Hbody v. unfold html_block, html_content.
    change (html_time (with_content_type v m)) with (html_time m).
    change (Message.quote (with_content_type v m)) with (Message.quote m).
    change (Message.deleted (with_content_type v m)) with (Message.deleted m).
    change (Message.text (with_content_type v m)) with (Message.text m).
    destruct (Message.deleted m); [reflexivity|].
    destruct Hbody as [Hd|Ht]; [discriminate|]. rewrite Ht. reflexivity.
Qed.

Lemma X6_array_type_breaks_the_text_export :
  parse_content_type Json.loads (item_content row_list_type)
  = Ok (VList [VStr (lit "x")]) /\
  In msg_list_type [day1_a; msg_list_type] /\
  unhashable (Message.content_type msg_list_type) = true /\
  exists e, render_txt [day1_a; msg_list_type] (lit "bob")
              (lit "2024-05-05 10:00:00") = Raise e.
Proof.
  split; [vm_compute; reflexivity|].
  split; [right; left; reflexivity|]. split; [reflexivity|].
  exact (proj1 (proj2 (X6_unhashable_content_type upper_ascii repr_plain
                         [day1_a; msg_list_type] msg_list_type (lit "bob")
                         (lit "2024-05-05 10:00:00")
                         (or_intror (or_introl eq_refl)) eq_refl))).
Defined.

Lemma join_next (sep p q : str) (l : list str) :
  join sep (p :: q :: l) = p ++ sep ++ join sep (q :: l).
Proof. reflexivity. Qed.

Lemma join_head (sep : str) (c : char) (w : str) (ws : list str) :
  join sep ((c :: w) :: ws) = c :: join sep (w :: ws).
Proof. destruct ws; reflexivity. Qed.

Lemma join_split (sep : char) (s : str) : join [sep] (split sep s) = s.
Proof.
  induction s as [|c r IH]; [reflexivity|].
  cbn [split]. destruct (split_cons sep r) as (w & ws & E).
  rewrite E in *. destruct (N.eqb_spec c sep) as [->|Hne].
  - rewrite join_next, IH. reflexivity.
  - rewrite join_head, IH. reflexivity.
Qed.

Lemma skipn_prefix {A} (p l : list A) : skipn (length p) (p ++ l) = l.
Proof. induction p as [|x p IH]; [reflexivity | exact IH]. Qed.

(** X7. The body of a message that is not deleted and has text is written
    line by line, every line after the same border: taking the border off
    the lines and joining them with line breaks gives the text back, and
    there is one line more than the text has line breaks. *)
Theorem X7_text_body_is_lossless :
  forall (upper : str -> str) (msg : Message.t) (icon : str),
    Message.deleted msg = false ->
    nonempty (Message.text msg) = true ->
    exists lines,
      txt_content upper msg icon = Ok lines /\
      join nl (List.map (skipn (length (txt_prefix icon))) lines)
      = Message.text msg /\
      length lines = S (count_occ N.eq_dec (Message.text msg) 10%N) /\
      Forall (fun line => firstn (length (txt_prefix icon)) line = txt_prefix icon)
             lines.
Proof.
  intros upper msg icon Hd Ht. unfold txt_content. rewrite Hd, Ht.
  eexists. split; [reflexivity|].
  assert (Hline : forall l, BOX_SIDE ++ lit "  "
                            ++ (if nonempty icon then icon ++ lit " " else []) ++ l
                            = txt_prefix icon ++ l).
  { intros l. unfold txt_prefix. now rewrite <- !app_assoc. }
  split; [|split].
  - rewrite List.map_map.
    rewrite (List.map_ext _ (fun x => x)); [rewrite List.map_id; apply join_split|].
    intros l. rewrite Hline. apply skipn_prefix.
  - rewrite length_map. generalize (Message.text msg). intros s.
    induction s as [|c r IH]; [reflexivity|].
    cbn [split count_occ]. destruct (N.eqb_spec c 10) as [->|Hne].
    + destruct (N.eq_dec 10 10) as [_|C]; [|now elim C]. cbn [length].
      now rewrite IH.
    + destruct (N.eq_dec c 10) as [C|_]; [now elim Hne|].
      destruct (split_cons 10%N r) as (w & ws & E). rewrite E in *. exact IH.
  - apply Forall_map. apply Forall_forall. intros l _. rewrite Hline.
    rewrite firstn_app, Nat.sub_diag, firstn_all. cbn [firstn]. apply app_nil_r.
Qed.

Lemma X7_two_lines_with_an_icon :
  Message.deleted (message [] (lit "a" ++ nl ++ lit "b")) = false /\
  nonempty (Message.text (message [] (lit "a" ++ nl ++ lit "b"))) = true /\
  exists lines,
    txt_content upper_ascii (message [] (lit "a" ++ nl ++ lit "b")) (lit "*")
    = Ok lines /\
    length lines = 2.
Proof.
  split; [reflexivity|]. split; [reflexivity|].
  destruct (@X7_text_body_is_lossless upper_ascii
              (message [] (lit "a" ++ nl ++ lit "b")) (lit "*") eq_refl eq_refl)
    as (lines & H & _ & Hlen & _).
  exists lines. split; [exact H | exact Hlen].
Defined.

(** X8. The date grouping never drops, repeats or reorders a message: the
    blocks are the messages in their order. Separators carry non-empty
    dates, no two successive separators carry the same date, and there are
    at most as many of them as messages. *)
Theorem X8_grouping_keeps_messages_and_never_repeats_a_date :
  forall (current_date : option str) (messages : list Message.t),
    blocks_of (date_grouping current_date messages) = messages /\
    no_repeat current_date (separators_of (date_grouping current_date messages)) /\
    length (separators_of (date_grouping current_date messages))
    <= length messages.
Proof.
  intros cd messages. revert cd.
  induction messages as [|m rest IH]; intros cd.
  - repeat split. apply Nat.le_refl.
  - cbn [date_grouping].
    destruct (date_changes cd (date_part (Message.timestamp m))) eqn:E.
    + destruct (IH (Some (date_part (Message.timestamp m)))) as (Hb & Hs & Hl).
      apply date_changes_iff in E as [Hne Hcd].
      unfold blocks_of, separators_of in *. cbn [flat_map app length].
      split; [now rewrite Hb|]. split; [|lia].
      cbn [no_repeat]. auto.
    + destruct (IH cd) as (Hb & Hs & Hl).
      unfold blocks_of, separators_of in *. cbn [flat_map app length].
      split; [now rewrite Hb|]. split; [exact Hs | lia].
Qed.

(** X9. The time shown for a message is the second space-separated field
    of its timestamp in both formats. For a timestamp without a space the
    text format shows the whole timestamp and the HTML format shows
    nothing. *)
Theorem X9_time_field :
  forall msg : Message.t,
    (contains (ch " ") (Message.timestamp msg) = true ->
     exists date time rest,
       split (ch " ") (Message.timestamp msg) = date :: time :: rest /\
       txt_time msg = Ok time /\ html_time msg = Ok time) /\
    (contains (ch " ") (Message.timestamp msg) = false ->
     txt_time msg = Ok (Message.timestamp msg) /\ html_time msg = Ok []).
Proof.
  intros msg. unfold txt_time, html_time. split; intros H; rewrite H.
  - destruct (split_two _ _ H) as (a & b & rest & E).
    exists a, b, rest. rewrite E. auto.
  - auto.
Qed.

Lemma X9_time_of_a_bare_date :
  contains (ch " ") (Message.timestamp (message (lit "2024-05-05") [])) = false /\
  txt_time (message (lit "2024-05-05") []) = Ok (lit "2024-05-05") /\
  html_time (message (lit "2024-05-05") []) = Ok [].
Proof.
  split; [reflexivity|].
  exact (proj2 (X9_time_field (message (lit "2024-05-05") [])) eq_refl).
Defined.

(** *** [export_json] *)

(** X10. When no string of the document holds a surrogate code point,
    [export_json] writes it, and the metadata read back are the chat name
    and the export time as given, the tool name, and a message count equal
    to the number of records in the messages array. *)
Theorem X10_json_metadata :
  forall (messages : list Message.t) (chat_name exported_at : str),
    forallb wf_message messages = true ->
    unencodable messages chat_name exported_at = false ->
    exists text doc meta records,
      export_json messages chat_name exported_at = Ok text /\
      Json.loads text = Ok doc /\
      py_item doc (lit "meta") = Ok meta /\
      py_item doc (lit "messages") = Ok (VList records) /\
      py_item meta (lit "chat_name") = Ok (VStr chat_name) /\
      py_item meta (lit "exported_at") = Ok (VStr exported_at) /\
      py_item meta (lit "tool") = Ok (VStr (lit "SimpleDB")) /\
      py_item meta (lit "message_count") = Ok (VInt (Z.of_nat (length records))) /\
      length records = length messages.
Proof.
  intros messages chat_name exported_at Hwf Henc.
  exists (json_text messages chat_name exported_at),
         (json_data messages chat_name exported_at).
  do 2 eexists. split; [|split].
  - now rewrite export_json_cases, Henc.
  - now apply json_text_reads_back.
  - unfold json_data. repeat split; try reflexivity.
    + cbn. now rewrite length_map.
    + apply length_map.
Qed.

Lemma X10_metadata_of_an_empty_export :
  forallb wf_message [] = true /\
  unencodable [] (lit "bob") (lit "now") = false /\
  exists text doc meta,
    export_json [] (lit "bob") (lit "now") = Ok text /\
    Json.loads text = Ok doc /\
    py_item doc (lit "meta") = Ok meta /\
    py_item meta (lit "message_count") = Ok (VInt 0).
Proof.
  split; [reflexivity|]. split; [reflexivity|].
  destruct (@X10_json_metadata [] (lit "bob") (lit "now") eq_refl eq_refl)
    as (text & doc & meta & records & Htext & Hdoc & Hmeta & _ & _ & _ & _
        & Hcount & Hlen).
  exists text, doc, meta. split; [exact Htext|]. split; [exact Hdoc|].
  split; [exact Hmeta|].
  destruct records; [exact Hcount | discriminate].
Defined.

(** ** [_find_item] *)

Lemma find_first {A} (f : A -> bool) (l : list A) (x : A) :
  find f l = Some x ->
  exists before after,
    l = before ++ x :: after /\ f x = true /\
    forall y, In y before -> f y = false.
Proof.
  induction l as [|a l IH]; [discriminate|]. cbn [find].
  destruct (f a) eqn:E.
  - intros [= ->]. exists [], l. repeat split; [assumption | intros y []].
  - intros H. destruct (IH H) as (before & after & -> & Hx & Hb).
    exists (a :: before), after. repeat split; [assumption|].
    intros y [<-|Hy]; auto.
Qed.

(** X11. A selection that reads as a number between 1 and the number of
    items picks the item at that position, counted from 1, whatever the
    names are: an item whose name is that same text is not preferred. *)
Theorem X11_find_item_by_number :
  forall (py_int : str -> result Z) (lower : str -> str)
         (items : list Item.t) (selection : str) (n : Z),
    py_int selection = Ok n ->
    (1 <= n <= Z.of_nat (length items))%Z ->
    exists item,
      nth_error items (Z.to_nat (n - 1)) = Some item /\
      _find_item py_int lower items selection = Ok (Some item).
Proof.
  intros py_int lower items selection n Hn Hrange.
  unfold _find_item. rewrite Hn. cbn [bind except_ValueError].
  replace (Z.leb 0 (n - 1)) with true by (symmetry; apply Z.leb_le; lia).
  replace (Z.ltb (n - 1) (Z.of_nat (length items))) with true
    by (symmetry; apply Z.ltb_lt; lia).
  cbn [andb]. unfold index.
  destruct (nth_error items (Z.to_nat (n - 1))) as [item|] eqn:E.
  - exists item. split; reflexivity.
  - apply nth_error_None in E. lia.
Qed.

Lemma X11_number_beats_name :
  int_decimal (lit "1") = Ok 1%Z /\
  (1 <= 1 <= Z.of_nat (length three_items))%Z /\
  _find_item int_decimal lower_ascii three_items (lit "1")
  = Ok (Some (item 10 (lit "alice"))).
Proof.
  split; [reflexivity|]. split; [cbn; lia|].
  destruct (@X11_find_item_by_number int_decimal lower_ascii three_items
              (lit "1") 1%Z eq_refl ltac:(cbn; lia)) as (it & Hnth & Hfind).
  rewrite Hfind. cbn in Hnth. now injection Hnth as <-.
Defined.

(** X12. A selection that is no number ([int] raises [ValueError]), or a
    number outside 1 .. the number of items, is looked up as a name
    without regard to case: the first item whose lowered name equals the
    lowered selection is returned, and [None] exactly when no item has
    such a name. *)
Theorem X12_find_item_by_name :
  forall (py_int : str -> result Z) (lower : str -> str)
         (items : list Item.t) (selection : str),
    (py_int selection = Raise ValueError \/
     exists n, py_int selection = Ok n /\
               (n < 1 \/ Z.of_nat (length items) < n)%Z) ->
    exists found,
      _find_item py_int lower items selection = Ok found /\
      match found with
      | Some item =>
          exists before after,
            items = before ++ item :: after /\
            lower (Item.name item) = lower selection /\
            forall other, In other before ->
                          lower (Item.name other) <> lower selection
      | None =>
          forall other, In other items ->
                        lower (Item.name other) <> lower selection
      end.
Proof.
  intros py_int lower items selection H.
  set (same := fun it : Item.t => str_eqb (lower (Item.name it)) (lower selection)).
  assert (Hfind : _find_item py_int lower items selection = Ok (find same items)).
  { unfold _find_item. destruct H as [-> | (n & -> & Hout)].
    - reflexivity.
    - cbn [bind except_ValueError].
      replace (Z.leb 0 (n - 1) && Z.ltb (n - 1) (Z.of_nat (length items)))
        with false; [reflexivity|].
      symmetry. apply andb_false_iff.
      destruct Hout; [left; apply Z.leb_gt | right; apply Z.ltb_ge]; lia. }
  exists (find same items). split; [exact Hfind|].
  destruct (find same items) as [it|] eqn:E.
  - destruct (find_first same items E) as (before & after & -> & Hit & Hb).
    exists before, after. split; [reflexivity|]. split.
    + now apply str_eqb_eq.
    + intros other Hin Heq. specialize (Hb other Hin). unfold same in Hb.
      rewrite Heq, str_eqb_refl in Hb. discriminate.
  - intros other Hin Heq. pose proof (find_none same items E other Hin) as Hn.
    unfold same in Hn. rewrite Heq, str_eqb_refl in Hn. discriminate.
Qed.

Lemma X12_name_without_regard_to_case :
  (int_decimal (lit "BOB") = Raise ValueError \/
   exists n, int_decimal (lit "BOB") = Ok n /\
             (n < 1 \/ Z.of_nat (length three_items) < n)%Z) /\
  _find_item int_decimal lower_ascii three_items (lit "BOB")
  = Ok (Some (item 20 (lit "Bob"))).
Proof.
  split; [left; reflexivity|].
  destruct (@X12_find_item_by_name int_decimal lower_ascii three_items (lit "BOB")
              (or_introl eq_refl)) as (found & Hfind & _).
  rewrite Hfind. vm_compute in Hfind. now injection Hfind as <-.
Defined.

(** ** The file name *)

Section SafeNameFacts.

Variable is_word : char -> bool.
Variable is_space : char -> bool.

Lemma lstrip_suffix (s : str) :
  exists dropped, s = dropped ++ lstrip is_space s.
Proof.
  induction s as [|c r (d & IH)]; [now exists []|]. cbn [lstrip].
  destruct (is_space c); [|now exists []].
  exists (c :: d). cbn [app]. now f_equal.
Qed.

Lemma In_lstrip (c : char) (s : str) : In c (lstrip is_space s) -> In c s.
Proof.
  destruct (lstrip_suffix s) as (d & E). intros H. rewrite E.
  apply in_or_app. now right.
Qed.

Lemma In_strip (c : char) (s : str) : In c (strip is_space s) -> In c s.
Proof.
  unfold strip. intros H. apply in_rev in H. apply In_lstrip in H.
  apply in_rev in H. now apply In_lstrip in H.
Qed.

End SafeNameFacts.

(** X13. The sanitized chat label that starts every export file name holds
    no space, and every character of it is a word character, a hyphen, an
    underscore or white space of the label: a character outside
    these classes, such as a path separator, never reaches the file name. *)
Theorem X13_safe_name_characters :
  forall (is_word is_space : char -> bool) (chat_name : str),
    contains (ch " ") (safe_name is_word is_space chat_name) = false /\
    (forall c, In c (safe_name is_word is_space chat_name) ->
       c = 95%N \/
       (In c chat_name /\ c <> 32%N /\
        (is_word c = true \/ is_space c = true \/ c = 45%N))) /\
    (forall c, is_word c = false -> is_space c = false ->
               c <> 45%N -> c <> 95%N ->
               ~ In c (safe_name is_word is_space chat_name)).
Proof.
  intros is_word is_space chat_name.
  assert (Hin : forall c, In c (safe_name is_word is_space chat_name) ->
       c = 95%N \/
       (In c chat_name /\ c <> 32%N /\
        (is_word c = true \/ is_space c = true \/ c = 45%N))).
  { intros c H. unfold safe_name, replace in H.
    apply in_flat_map in H as (x & Hx & Hc).
    apply In_strip in Hx. apply filter_In in Hx as [Hx Hkeep].
    change (ch " ") with 32%N in Hc.
    destruct (N.eqb_spec x 32) as [->|Hne].
    - left. destruct Hc as [<-|[]]. reflexivity.
    - right. destruct Hc as [<-|[]]. split; [assumption|]. split; [assumption|].
      apply orb_true_iff in Hkeep as [Hkeep|Hkeep];
        [apply orb_true_iff in Hkeep as [?|?]; auto|].
      apply N.eqb_eq in Hkeep. auto. }
  split; [|split; [exact Hin|]].
  - unfold safe_name, replace.
    apply contains_flat_map. intros x. change (ch " ") with 32%N.
    destruct (N.eqb_spec x 32) as [->|Hne]; [reflexivity|].
    unfold contains. cbn [existsb]. apply N.eqb_neq in Hne.
    now rewrite N.eqb_sym, Hne.
  - intros c Hw Hs H45 H95 H. destruct (Hin c H) as [E|(_ & _ & [E|[E|E]])];
      congruence.
Qed.

Lemma X13_slashes_are_removed :
  word_ascii 47%N = false /\ space_ascii 47%N = false /\
  47%N <> 45%N /\ 47%N <> 95%N /\
  safe_name word_ascii space_ascii (lit " ../my chat: a-b ")
  = lit "my_chat_a-b" /\
  ~ In 47%N (safe_name word_ascii space_ascii (lit " ../my chat: a-b ")).
Proof.
  split; [reflexivity|]. split; [reflexivity|].
  split; [discriminate|]. split; [discriminate|]. split; [reflexivity|].
  apply (proj2 (proj2 (X13_safe_name_characters word_ascii space_ascii
                         (lit " ../my chat: a-b "))));
    [reflexivity | reflexivity | discriminate | discriminate].
Defined.

Section StripFacts.

Variable is_space : char -> bool.

Lemma lstrip_all_space (s : str) :
  forallb is_space s = true -> lstrip is_space s = [].
Proof.
  induction s as [|c r IH]; [reflexivity|]. cbn [forallb lstrip].
  intros H. apply andb_true_iff in H as [-> Hr]. now apply IH.
Qed.

End StripFacts.

(** X14. A chat name without any word character or hyphen (only
    punctuation, symbols and white space) is sanitized to the empty
    label: the base of the file names is then the underscore followed by
    the time stamp, whatever the chat. *)
Theorem X14_safe_name_can_be_empty :
  forall (is_word is_space : char -> bool) (chat_name stamp : str),
    forallb (fun c => negb (is_word c) && negb (N.eqb c 45)) chat_name = true ->
    safe_name is_word is_space chat_name = [] /\
    export_base is_word is_space chat_name stamp = lit "_" ++ stamp.
Proof.
  intros is_word is_space chat_name stamp H.
  assert (Hempty : safe_name is_word is_space chat_name = []).
  { unfold safe_name, strip.
    assert (Hs : forallb is_space
                   (filter (fun c => is_word c || is_space c || N.eqb c 45)
                           chat_name) = true).
    { induction chat_name as [|c r IH]; [reflexivity|].
      cbn [forallb filter] in *. apply andb_true_iff in H as [Hc Hr].
      apply andb_true_iff in Hc as [Hw Hh].
      apply negb_true_iff in Hw, Hh. rewrite Hw, Hh, orb_false_r. cbn [orb].
      destruct (is_space c) eqn:Ec; [|now apply IH].
      cbn [forallb]. rewrite Ec. now apply IH. }
    rewrite (@lstrip_all_space is_space _ Hs). reflexivity. }
  split; [exact Hempty|]. unfold export_base. now rewrite Hempty.
Qed.

Lemma X14_name_of_symbols :
  forallb (fun c => negb (word_ascii c) && negb (N.eqb c 45)) (lit " #!? ") = true /\
  export_base word_ascii space_ascii (lit " #!? ") (lit "20240505_100000")
  = lit "_20240505_100000".
Proof.
  split; [reflexivity|].
  exact (proj2 (X14_safe_name_can_be_empty word_ascii space_ascii (lit " #!? ")
                  (lit "20240505_100000") eq_refl)).
Defined.

(** ** From the rows to the JSON file *)

Lemma dict_lookup_wf (k : str) (d : list (str * pyval)) (v : pyval) :
  forallb (fun kv => wf (snd kv)) d = true ->
  dict_lookup k d = Some v -> wf v = true.
Proof.
  induction d as [|[k' v'] d IH]; [discriminate|].
  cbn [forallb dict_lookup snd]. intros H. apply andb_true_iff in H as [Hv Hd].
  destruct (str_eqb k k'); [intros [= <-]; exact Hv | now apply IH].
Qed.

Lemma wf_dict_values (d : list (str * pyval)) :
  wf (VDict d) = true -> forallb (fun kv => wf (snd kv)) d = true.
Proof.
  change (wf (VDict d)) with
    (distinct (List.map fst d) && forallb (fun kv => wf (snd kv)) d).
  intros H. now apply andb_true_iff in H as [_ H].
Qed.

Section PipelineFacts.

Variable json_loads : str -> result pyval.
Variable datetime : Type.
Variable fromisoformat : str -> result datetime.
Variable strftime : datetime -> result str.

Lemma content_type_wf (c : option str) (v : pyval) :
  decodes_wf json_loads c = true ->
  parse_content_type json_loads c = Ok v -> wf v = true.
Proof.
  intros Hwf Hv.
  destruct (content_type_cases json_loads c Hv)
    as [-> | (raw & content & -> & _ & Hload & Hfield)]; [reflexivity|].
  unfold decodes_wf in Hwf. rewrite Hload in Hwf.
  destruct Hfield as (top & d & inner & -> & Hmsg & Hinner & Hty).
  apply wf_dict_values in Hwf.
  assert (Hd : wf (VDict d) = true).
  { destruct Hmsg as [Hr | [_ Hs]]; eapply dict_lookup_wf; eauto. }
  apply wf_dict_values in Hd.
  pose proof (@dict_lookup_wf _ _ _ Hd Hinner) as Hi.
  apply wf_dict_values in Hi.
  exact (@dict_lookup_wf _ _ _ Hi Hty).
Qed.

Lemma quote_wf (c : option str) (b : option Z) (q : Quote.t) :
  decodes_wf json_loads c = true ->
  parse_quote json_loads c b = Ok (Some q) -> wf (Quote.text q) = true.
Proof.
  intros Hwf Hq.
  destruct (quote_cases json_loads c b Hq)
    as (_ & _ & raw & d & -> & Hload & Htext).
  unfold decodes_wf in Hwf. rewrite Hload in Hwf.
  apply wf_dict_values in Hwf. exact (@dict_lookup_wf _ _ _ Hwf Htext).
Qed.

Lemma parse_message_wf (row : Row) (name : option str) (m : Message.t) :
  row_wf json_loads row = true ->
  _parse_message json_loads fromisoformat strftime row name = Ok m ->
  wf_message m = true.
Proof.
  intros Hrow Hm. apply andb_true_iff in Hrow as [Hc Hq].
  destruct (parse_message_total json_loads fromisoformat strftime row name)
    as (m' & Hm' & Hct & Hquote & _).
  rewrite Hm in Hm'. injection Hm' as <-.
  unfold wf_message. rewrite (@content_type_wf _ _ Hc Hct). cbn [andb].
  destruct (Message.quote m) as [q|] eqn:E; [|reflexivity].
  exact (@quote_wf _ _ _ Hq Hquote).
Qed.

Lemma contact_messages_wf (fetched : list Row) (name : option str) :
  forallb (row_wf json_loads) fetched = true ->
  exists messages,
    get_contact_messages json_loads fromisoformat strftime fetched name
    = Ok messages /\
    length messages = length fetched /\
    forallb wf_message messages = true.
Proof.
  intros Hrows. unfold get_contact_messages.
  destruct (collect_all json_loads fromisoformat strftime
              (List.map (fun r => (r, name)) fetched) [])
    as (ms & Hms & Hall).
  exists ms. split; [exact Hms|].
  clear Hms. revert ms Hall.
  induction fetched as [|r rest IH]; intros ms Hall.
  - inversion Hall. split; reflexivity.
  - cbn [List.map] in Hall. inversion Hall as [|x m xs ms' Hm Hrest]; subst.
    cbn [forallb] in Hrows. apply andb_true_iff in Hrows as [Hr Hrs].
    destruct (IH Hrs ms' Hrest) as [Hlen Hwf].
    cbn [fst snd] in Hm. cbn [length forallb].
    rewrite (@parse_message_wf r name m Hr Hm), Hwf, Hlen. split; reflexivity.
Qed.

End PipelineFacts.

(** X15. From the database to the JSON file: for rows whose JSON texts
    decode to Python values, the contact's messages are produced, one per
    fetched row. When no string of them, of the chat name or of the export
    time holds a surrogate code point, the JSON document is written,
    decodes and reads back as exactly these messages, whatever their
    content types and quote texts are; otherwise [export_json] raises
    [UnicodeEncodeError]. *)
Theorem X15_rows_to_json_and_back :
  forall (json_loads : str -> result pyval) (datetime : Type)
         (fromisoformat : str -> result datetime)
         (strftime : datetime -> result str)
         (fetched : list Row) (contact_name : option str)
         (chat_name exported_at : str),
    forallb (row_wf json_loads) fetched = true ->
    exists messages,
      get_contact_messages json_loads fromisoformat strftime fetched contact_name
      = Ok messages /\
      length messages = length fetched /\
      (unencodable messages chat_name exported_at = false ->
       exists text doc,
         export_json messages chat_name exported_at = Ok text /\
         Json.loads text = Ok doc /\
         read_messages doc = Ok messages) /\
      (unencodable messages chat_name exported_at = true ->
       export_json messages chat_name exported_at = Raise UnicodeEncodeError).
Proof.
  intros json_loads datetime fromisoformat strftime fetched contact_name
         chat_name exported_at Hrows.
  destruct (contact_messages_wf json_loads fromisoformat strftime fetched
              contact_name Hrows) as (messages & Hget & Hlen & Hwf).
  exists messages. split; [exact Hget|]. split; [exact Hlen|].
  rewrite export_json_cases. split; intros ->; [|reflexivity].
  destruct (json_text_reads_back messages chat_name exported_at Hwf)
    as [Hload Hread].
  exists (json_text messages chat_name exported_at),
         (json_data messages chat_name exported_at).
  split; [reflexivity|]. split; [exact Hload | exact Hread].
Qed.

Lemma X15_report_and_image_rows :
  forallb (row_wf Json.loads) [row_report; row_image; row_list_type] = true /\
  exists messages text doc,
    contact_messages [row_report; row_image; row_list_type] (Some (lit "bob"))
    = Ok messages /\
    length messages = 3 /\
    export_json messages (lit "bob") (lit "now") = Ok text /\
    Json.loads text = Ok doc /\
    read_messages doc = Ok messages.
Proof.
  split; [vm_compute; reflexivity|].
  destruct (X15_rows_to_json_and_back Json.loads Datetime.fromisoformat
              Datetime.strftime [row_report; row_image; row_list_type]
              (Some (lit "bob")) (lit "bob") (lit "now") eq_refl)
    as (messages & Hget & Hlen & Hok & _).
  assert (Henc : unencodable messages (lit "bob") (lit "now") = false).
  { vm_compute in Hget. injection Hget as <-. reflexivity. }
  destruct (Hok Henc) as (text & doc & Htext & Hdoc & Hread).
  exists messages, text, doc. auto.
Defined.

(** ** The message count of the lists *)

Lemma prefix_ci_app (p q s : str) :
  prefix_ci (p ++ q) s = true -> like_contains q s = true.
Proof.
  revert s. induction p as [|x p IH]; intros s H.
  - cbn [app] in H. destruct s; cbn [like_contains]; now rewrite H.
  - destruct s as [|y s]; [discriminate|].
    cbn [app prefix_ci] in H. apply andb_true_iff in H as [_ H].
    cbn [like_contains]. rewrite (IH s H). apply orb_true_r.
Qed.

Lemma like_contains_app (p q s : str) :
  like_contains (p ++ q) s = true -> like_contains q s = true.
Proof.
  induction s as [|y s IH]; cbn [like_contains]; intros H.
  - rewrite orb_false_r in H. apply (prefix_ci_app p q [] H).
  - apply orb_true_iff in H as [H|H].
    + apply (prefix_ci_app p q (y :: s) H).
    + change (like_contains q (y :: s))
        with (prefix_ci q (y :: s) || like_contains q s).
      rewrite (IH H). apply orb_true_r.
Qed.

Lemma fetched_is_counted (r : Row) : where_clause r = true -> counted r = true.
Proof.
  unfold where_clause, counted. destruct (item_content r) as [c|]; [|discriminate].
  intros H. apply orb_true_iff in H as [H|H].
  - exact (like_contains_app (lit "rcv") (lit "MsgContent") c H).
  - exact (like_contains_app (lit "snd") (lit "MsgContent") c H).
Qed.

(** X16. The message count shown beside a contact or a group is never
    smaller than the number of messages exported for it: every row the
    message query fetches is counted, and each fetched row gives one
    message. The count can be larger, as it also takes rows whose content
    names a [MsgContent] that is neither received nor sent. *)
Theorem X16_count_covers_the_export :
  forall (json_loads : str -> result pyval) (datetime : Type)
         (fromisoformat : str -> result datetime)
         (strftime : datetime -> result str)
         (chat_items : list Row) (contact_name : option str),
    (exists messages,
       get_contact_messages json_loads fromisoformat strftime
         (fetch chat_items) contact_name = Ok messages /\
       length messages <= count_messages chat_items) /\
    count_messages (row_counted_only :: chat_items)
    = S (count_messages chat_items) /\
    fetch (row_counted_only :: chat_items) = fetch chat_items.
Proof.
  intros json_loads datetime fromisoformat strftime chat_items contact_name.
  split; [|split; reflexivity].
  unfold get_contact_messages.
  destruct (collect_all json_loads fromisoformat strftime
              (List.map (fun r => (r, contact_name)) (fetch chat_items)) [])
    as (ms & Hms & Hall).
  exists ms. split; [exact Hms|].
  apply Forall2_length in Hall. rewrite length_map in Hall. rewrite <- Hall.
  unfold fetch, count_messages. clear.
  induction chat_items as [|r rest IH]; [apply Nat.le_refl|].
  cbn [filter]. destruct (where_clause r) eqn:E.
  - rewrite (fetched_is_counted r E). cbn [length]. lia.
  - destruct (counted r); cbn [length]; lia.
Qed.
